(** * Calendar finance widget: the ledger and its aggregates

    A shallow embedding of the data model and storage layer of [main.py]
    ([Transaction], [FinanceBook], [load_book], [save_book]) and of the
    callbacks of [FinanceApp] that read and change the ledger.

    Conventions.
    - A Python [float] is an IEEE-754 binary64 number: Rocq's primitive
      [float], with [+], [-], [<], [<=] and [==] the primitive operations.
    - A Python exception is a constructor of [exn]; a computation that may
      raise returns a [result].
    - A method of [FinanceBook] is a function from the book to a value and
      the book afterwards ([Meth]).
    - Objects are their values.  Where the identity of an object decides,
      in [list.remove], the object is named by its position in the ledger.
    - Functions of the Python library whose full behaviour is not needed
      (parsing of dates and of numerals, [repr], the rounding of [sum]) are
      fields of a record [pylib]; the statements hold for every such
      library. *)

From Stdlib Require Import ZArith Floats Ascii String.
From stdpp Require Import gmap strings list sorting.

Local Open Scope string_scope.
Local Open Scope list_scope.
Local Open Scope Z_scope.

(** ** Exceptions *)

Inductive exn : Set :=
| KeyError | ValueError | TypeError | AttributeError | OverflowError
| OSError.

Inductive result (A : Type) : Type :=
| Ok (a : A)
| Raise (e : exn).
Arguments Ok {A} a.
Arguments Raise {A} e.

Global Instance result_ret : MRet result := @Ok.
Global Instance result_bind : MBind result := λ A B k r,
  match r with
  | Ok a => k a
  | Raise e => Raise e
  end.

Definition raises {A} (r : result A) : Prop := ∃ e, r = Raise e.

Definition of_option {A} (e : exn) (o : option A) : result A :=
  match o with
  | Some a => Ok a
  | None => Raise e
  end.

(** [[f(x) for x in l]]: left to right, the first exception ends the loop. *)
Fixpoint rmap {A B} (f : A → result B) (l : list A) : result (list B) :=
  match l with
  | [] => Ok []
  | x :: l' => y ← f x; ys ← rmap f l'; Ok (y :: ys)
  end.

(** [for x in l: acc = f(acc, x)]. *)
Fixpoint rfold {A S} (f : S → A → result S) (acc : S) (l : list A) : result S :=
  match l with
  | [] => Ok acc
  | x :: l' => acc' ← f acc x; rfold f acc' l'
  end.

(** ** Floats *)

Definition fzero : float := 0%float.

(** [acc = 0.0] followed by [acc += x] for each [x] of [l], in order. *)
Definition fsum (l : list float) : float := foldl PrimFloat.add fzero l.

(** [float(n)] for a Python [int]: round to nearest, ties to even;
    [OverflowError] when the result would not be finite. *)
Definition float_of_int (z : Z) : result float :=
  match binary_normalize prec emax z 0 false with
  | S754_infinity _ => Raise OverflowError
  | s => Ok (SF2Prim s)
  end.

(** ** [datetime.date] *)

Module datetime.

Definition is_leap (y : Z) : bool :=
  (y mod 4 =? 0) && (negb (y mod 100 =? 0) || (y mod 400 =? 0)).

Definition days_in_month (y m : Z) : Z :=
  if (m =? 2) then (if is_leap y then 29 else 28)
  else if (m =? 4) || (m =? 6) || (m =? 9) || (m =? 11) then 30
  else 31.

(** The range check of the [date] constructor: [MINYEAR = 1],
    [MAXYEAR = 9999]. *)
Definition valid_ymd (y m d : Z) : bool :=
  (1 <=? y) && (y <=? 9999) && (1 <=? m) && (m <=? 12)
  && (1 <=? d) && (d <=? days_in_month y m).

Record date : Set := mkdate {
  year : Z;
  month : Z;
  day : Z;
  date_ok : valid_ymd year month day = true
}.

(** [date(y, m, d)]; [None] stands for the [ValueError] of the range check. *)
Definition make (y m d : Z) : option date :=
  match valid_ymd y m d as b return valid_ymd y m d = b → option date with
  | true => λ H, Some (mkdate y m d H)
  | false => λ _, None
  end eq_refl.

(** [d1 == d2] *)
Definition eqb (a b : date) : bool :=
  (year a =? year b) && (month a =? month b) && (day a =? day b).

Definition digit (n : Z) : ascii := ascii_of_nat (48 + Z.to_nat (n mod 10))%nat.

Definition pad2 (n : Z) (rest : string) : string :=
  String (digit (n / 10)) (String (digit n) rest).

Definition pad4 (n : Z) (rest : string) : string :=
  String (digit (n / 1000)) (String (digit (n / 100)) (pad2 n rest)).

(** [d.isoformat()], that is ["%04d-%02d-%02d" % (year, month, day)]. *)
Definition isoformat (d : date) : string :=
  pad4 (year d) (String "-" (pad2 (month d) (String "-" (pad2 (day d) "")))).

End datetime.

(** ** Python values exchanged with [json] *)

(** What [json.loads] produces and [json.dumps] consumes.  A [dict] whose
    order of keys plays no role is a finite map. *)
#[warnings="-register-all"]
Inductive pyval : Type :=
| PyNone
| PyBool (b : bool)
| PyInt (z : Z)
| PyFloat (f : float)
| PyStr (s : string)
| PyList (l : list pyval)
| PyDict (m : gmap string pyval).

(** The library functions left open.  [None] is the [ValueError] of a failed
    parse. *)
Record pylib : Type := {
  (** [datetime.fromisoformat(s).date()] *)
  fromisoformat : string → option datetime.date;
  (** [float(s)] for a string [s] *)
  float_of_str : string → option float;
  (** [str(v)] for a value [v] that is not a string *)
  repr : pyval → string;
  (** [sum(l)] for floats [l]: up to CPython 3.11 the plain accumulation
      [fsum]; later versions carry a compensation term for the rounding
      error of the additions *)
  py_sum : list float → float
}.

(** ** Python dictionaries in insertion order *)

Section pydict.
Context {K V : Type} `{EqDecision K}.

(** [d[k]], [None] when [k] is not a key. *)
Fixpoint dict_get (k : K) (d : list (K * V)) : option V :=
  match d with
  | [] => None
  | (k', v) :: d' => if decide (k = k') then Some v else dict_get k d'
  end.

(** [d[k] = v]: an existing key keeps its place, a new one goes last. *)
Fixpoint dict_set (k : K) (v : V) (d : list (K * V)) : list (K * V) :=
  match d with
  | [] => [(k, v)]
  | (k', v') :: d' =>
      if decide (k = k') then (k', v) :: d' else (k', v') :: dict_set k v d'
  end.

Definition dict_keys (d : list (K * V)) : list K := d.*1.
End pydict.

(** ** [sorted] *)

Section sorted.
Context {A : Type} (lt : A → A → bool).

(** [sorted] is stable; for keys on which [<] is a strict weak order every
    stable sort returns the same list, here by insertion.  [insort x l] puts
    [x], which stood before the elements of [l], in front of the first
    element that is not smaller than [x]. *)
Fixpoint insort (x : A) (l : list A) : list A :=
  match l with
  | [] => [x]
  | y :: l' => if lt y x then y :: insort x l' else x :: y :: l'
  end.

Definition py_sorted (l : list A) : list A := foldr insort [] l.
End sorted.

(** [sorted(l, key=..., reverse=True)]: descending, equal keys in their
    original order.  This is the list CPython returns whenever [<] is a
    strict weak order on the keys, as it is on integers, on dates and on
    floats without a NaN.  With a NaN among the keys the list CPython
    returns depends on the comparisons its algorithm happens to make; the
    theorems then claim only what holds of every rearrangement, and the one
    list looked at, [nan_categories], is a run that CPython finds in order
    and returns as it is. *)
Definition py_sorted_reverse {A} (lt : A → A → bool) : list A → list A :=
  py_sorted (λ x y, lt y x).

(** ** Data model *)

Record Transaction : Type := mkTransaction {
  date : datetime.date;
  amount : float;
  party : string;
  category : string;
  kind : string
}.

(** [float(v)] *)
Definition py_float (L : pylib) (v : pyval) : result float :=
  match v with
  | PyFloat f => Ok f
  | PyInt z => float_of_int z
  | PyBool b => Ok (if b then 1%float else 0%float)
  | PyStr s => of_option ValueError (float_of_str L s)
  | PyNone | PyList _ | PyDict _ => Raise TypeError
  end.

(** [str(v)] *)
Definition py_str (L : pylib) (v : pyval) : string :=
  match v with
  | PyStr s => s
  | _ => repr L v
  end.

(** [datetime.fromisoformat(v).date()] *)
Definition py_fromisoformat (L : pylib) (v : pyval) : result datetime.date :=
  match v with
  | PyStr s => of_option ValueError (fromisoformat L s)
  | _ => Raise TypeError
  end.

(** [data[k]] for a string [k] *)
Definition getitem (data : pyval) (k : string) : result pyval :=
  match data with
  | PyDict m => of_option KeyError (m !! k)
  | _ => Raise TypeError
  end.

(** [data.get(k, dflt)] *)
Definition get_default (data : pyval) (k : string) (dflt : pyval) : result pyval :=
  match data with
  | PyDict m => Ok (default dflt (m !! k))
  | _ => Raise AttributeError
  end.

(** [for item in v].  A string yields its characters and a dictionary its
    keys (here in no particular order): strings, each of which [from_json]
    refuses. *)
Definition py_iter (v : pyval) : result (list pyval) :=
  match v with
  | PyList l => Ok l
  | PyStr s => Ok ((λ c, PyStr (String c "")) <$> list_ascii_of_string s)
  | PyDict m => Ok (PyStr <$> (map_to_list m).*1)
  | PyNone | PyBool _ | PyInt _ | PyFloat _ => Raise TypeError
  end.

(** [Transaction.to_json]: the fields as a [dict], the date in ISO format. *)
Definition to_json (self : Transaction) : pyval :=
  PyDict
    (<["date" := PyStr (datetime.isoformat (date self))]>
    (<["amount" := PyFloat (amount self)]>
    (<["party" := PyStr (party self)]>
    (<["category" := PyStr (category self)]>
    (<["kind" := PyStr (kind self)]> ∅))))).

(** [Transaction.from_json] *)
Definition from_json (L : pylib) (data : pyval) : result Transaction :=
  d ← getitem data "date";
  d ← py_fromisoformat L d;
  a ← getitem data "amount";
  a ← py_float L a;
  p ← get_default data "party" (PyStr "");
  c ← get_default data "category" (PyStr "");
  k ← getitem data "kind";
  Ok (mkTransaction d a (py_str L p) (py_str L c) (py_str L k)).

(** [a == b] for the dataclass: the tuples of fields are compared. *)
Definition tx_eqb (a b : Transaction) : bool :=
  datetime.eqb (date a) (date b)
  && PrimFloat.eqb (amount a) (amount b)
  && String.eqb (party a) (party b)
  && String.eqb (category a) (category b)
  && String.eqb (kind a) (kind b).

Record FinanceBook : Type := mkFinanceBook {
  transactions : list Transaction
}.

(** [FinanceBook(transactions)]: [self.transactions = transactions or []]. *)
Definition FinanceBook_init (txs : option (list Transaction)) : FinanceBook :=
  mkFinanceBook (default [] txs).

(** ** Methods: the book before, the value and the book after *)

Definition Meth (A : Type) : Type := FinanceBook → A * FinanceBook.

Global Instance Meth_ret : MRet Meth := λ A a self, (a, self).
Global Instance Meth_bind : MBind Meth := λ A B k m self,
  let '(a, self') := m self in k a self'.

(** The value a method returns and the book it leaves. *)
Definition value {A} (m : Meth A) (self : FinanceBook) : A := (m self).1.
Definition after {A} (m : Meth A) (self : FinanceBook) : FinanceBook := (m self).2.

(** [self.transactions] *)
Definition self_transactions : Meth (list Transaction) :=
  λ self, (transactions self, self).

(** One totals dictionary [{"income": .., "expense": .., "net": ..}]. *)
Record totals : Type := mkTotals {
  income : float;
  expense : float;
  net : float
}.

Definition add_income (a : float) (t : totals) : totals :=
  mkTotals (income t + a) (expense t) (net t).
Definition add_expense (a : float) (t : totals) : totals :=
  mkTotals (income t) (expense t + a) (net t).
Definition set_net (t : totals) : totals :=
  mkTotals (income t) (expense t) (income t - expense t).

(** [totals[m][field] += a]: [KeyError] when [m] is not a key. *)
Definition update_month (f : totals → totals) (m : Z)
    (tot : list (Z * totals)) : result (list (Z * totals)) :=
  t ← of_option KeyError (dict_get m tot);
  Ok (dict_set m (f t) tot).

(** The body of the first loop of [monthly_totals]. *)
Definition book_transaction (tot : list (Z * totals)) (tx : Transaction)
    : result (list (Z * totals)) :=
  if decide (kind tx = "income")
  then update_month (add_income (amount tx)) (datetime.month (date tx)) tot
  else update_month (add_expense (amount tx)) (datetime.month (date tx)) tot.

(** [range(1, 13)] *)
Definition months : list Z := [1; 2; 3; 4; 5; 6; 7; 8; 9; 10; 11; 12].

(** [tx.category or "(uncategorized)"] *)
Definition label (tx : Transaction) : string :=
  if decide (category tx = "") then "(uncategorized)" else category tx.

(** [buckets[k] += a] on a [defaultdict(float)]. *)
Definition bucket_add (k : string) (a : float)
    (buckets : list (string * float)) : list (string * float) :=
  dict_set k (default fzero (dict_get k buckets) + a)%float buckets.

Module FinanceBook.

Definition add (tx : Transaction) : Meth unit :=
  λ self, (tt, mkFinanceBook (transactions self ++ [tx])).

(** [today] is the value of [date.today()]. *)
Definition all_years (today : datetime.date) : Meth (list Z) :=
  txs ← self_transactions;
  let years :=
    py_sorted Z.ltb
      (elements (list_to_set ((λ tx, datetime.year (date tx)) <$> txs)
                 : gset Z)) in
  mret (match years with
        | [] => [datetime.year today]
        | _ => years
        end).

Definition for_year (year : Z) : Meth (list Transaction) :=
  txs ← self_transactions;
  mret (filter (λ tx, datetime.year (date tx) = year) txs).

Definition for_year_and_month (year : Z) (month : option Z)
    : Meth (list Transaction) :=
  match month with
  | None => for_year year
  | Some month =>
      txs ← self_transactions;
      mret (filter (λ tx, datetime.year (date tx) = year
                          ∧ datetime.month (date tx) = month) txs)
  end.

Definition monthly_totals (year : Z) : Meth (result (list (Z * totals))) :=
  let tot := (λ m, (m, mkTotals fzero fzero fzero)) <$> months in
  txs ← for_year year;
  mret (
    tot ← rfold book_transaction tot txs;
    rfold (λ tot m, update_month set_net m tot) tot (dict_keys tot)).

Definition yearly_totals (L : pylib) (year : Z) : Meth (result totals) :=
  mt ← monthly_totals year;
  mret (
    mt ← mt;
    inc ← rmap (λ m, t ← of_option KeyError (dict_get m mt); Ok (income t))
           (dict_keys mt);
    exp ← rmap (λ m, t ← of_option KeyError (dict_get m mt); Ok (expense t))
           (dict_keys mt);
    let inc := py_sum L inc in
    let exp := py_sum L exp in
    Ok (mkTotals inc exp (inc - exp))).

Definition category_totals (year : Z) (kind_ : string) (month : option Z)
    : Meth (list (string * float)) :=
  txs ← for_year_and_month year month;
  let buckets :=
    foldl (λ buckets tx,
             if decide (kind tx = kind_)
             then bucket_add (label tx) (amount tx) buckets
             else buckets)
          [] txs in
  mret (py_sorted_reverse (λ kv kv', kv.2 <? kv'.2)%float buckets).

End FinanceBook.

(** ** Removal from the ledger *)

(** [l.remove(x)] by value: the first item [y] with [y == x] is taken out;
    [ValueError] when there is none.  CPython tries identity before [==];
    [list_remove_object] below has both, and the two agree on every target
    whose amount is no NaN and on every target that is no item of the
    list. *)
Fixpoint list_remove (x : Transaction) (l : list Transaction)
    : result (list Transaction) :=
  match l with
  | [] => Raise ValueError
  | y :: l' =>
      if tx_eqb y x then Ok l'
      else l'' ← list_remove x l'; Ok (y :: l'')
  end.

(** [self.book.transactions.remove(target)], the one statement of
    [FinanceApp.delete_selected] that changes the ledger. *)
Definition remove (target : Transaction) : Meth (result unit) :=
  λ self,
    match list_remove target (transactions self) with
    | Ok l => (Ok tt, mkFinanceBook l)
    | Raise e => (Raise e, self)
    end.

(** [l.remove(x)] as CPython runs it: the items are tried from the front,
    and the first one that is the object [x] itself, or for which
    [item == x] holds, is taken out; [ValueError] when there is none.
    [pos] is the position at which the object [x] stands in [l], [None] when
    [x] is no item of [l]: every position of the ledger holds an object of
    its own, made by [add_tx] or by [from_json].  [eq] is the [==] of the
    dataclass on two different objects: the fields are compared with [==],
    except that some versions of the library take two amounts that are one
    and the same NaN object for equal. *)
Fixpoint list_remove_object (eq : Transaction → Transaction → bool)
    (x : Transaction) (pos : option nat) (l : list Transaction)
    : result (list Transaction) :=
  match l with
  | [] => Raise ValueError
  | y :: l' =>
      if bool_decide (pos = Some 0%nat) || eq y x then Ok l'
      else l'' ← list_remove_object eq x (Nat.pred <$> pos) l'; Ok (y :: l'')
  end.

(** [self.book.transactions.remove(target)] with the identity of the
    target. *)
Definition remove_object (eq : Transaction → Transaction → bool)
    (target : Transaction) (pos : option nat) : Meth (result unit) :=
  λ self,
    match list_remove_object eq target pos (transactions self) with
    | Ok l => (Ok tt, mkFinanceBook l)
    | Raise e => (Raise e, self)
    end.

(** ** Storage *)

(** The state of [DATA_FILE] when [DATA_FILE.exists()] answers: absent, or
    present with the outcome of
    [json.loads(DATA_FILE.read_text(encoding="utf-8"))], which is the parsed
    document or the exception of a failed read or parse.  A file system on
    which [exists()] itself raises is no state of this type: that call
    stands before the [try] of [load_book]. *)
Inductive data_file : Type :=
| NoFile
| File (loaded : result pyval).

(** [raw.get("transactions", [])], as the sequence the comprehension of
    [load_book] runs over. *)
Definition records (raw : pyval) : result (list pyval) :=
  items ← get_default raw "transactions" (PyList []);
  py_iter items.

Definition load_book (L : pylib) (f : data_file) : FinanceBook :=
  match f with
  | NoFile => FinanceBook_init (Some [])
  | File loaded =>
      let attempt :=
        raw ← loaded;
        items ← records raw;
        txs ← rmap (from_json L) items;
        Ok (FinanceBook_init (Some txs)) in
      match attempt with
      | Ok book => book
      | Raise _ => FinanceBook_init (Some [])
      end
  end.

(** The document that [save_book] builds and hands to
    [DATA_FILE.write_text]; what the write does with it is an argument of
    the callbacks that save, see [FinanceApp.add_tx]. *)
Definition save_book (book : FinanceBook) : pyval :=
  PyDict (<["transactions" := PyList (to_json <$> transactions book)]> ∅).

(** ** A reference library for the wire format

    [wire] runs the definitions above on concrete records: dates written
    [YYYY-MM-DD], numerals written as CPython's [float] reads them from
    ASCII text, [str] of [None], booleans and integers, and [sum] as the
    plain accumulation.  It is used for the concrete instances only. *)

Module wire.

Definition digit_val (c : ascii) : option Z :=
  let n := Z.of_nat (nat_of_ascii c) in
  if (48 <=? n) && (n <=? 57) then Some (n - 48) else None.

Definition num2 (a b : ascii) : option Z :=
  x ← digit_val a; y ← digit_val b; Some (10 * x + y).

Definition fromisoformat (s : string) : option datetime.date :=
  match list_ascii_of_string s with
  | [y1; y2; y3; y4; "-"%char; m1; m2; "-"%char; d1; d2] =>
      yh ← num2 y1 y2; yl ← num2 y3 y4; m ← num2 m1 m2; d ← num2 d1 d2;
      datetime.make (100 * yh + yl) m d
  | _ => None
  end.

(** *** Decimal numerals *)

Definition is_space (c : ascii) : bool :=
  let n := nat_of_ascii c in
  ((9 <=? n) && (n <=? 13))%nat || (n =? 32)%nat.

Definition lower (c : ascii) : ascii :=
  let n := nat_of_ascii c in
  if ((65 <=? n) && (n <=? 90))%nat then ascii_of_nat (n + 32) else c.

Fixpoint lstrip (l : list ascii) : list ascii :=
  match l with
  | c :: l' => if is_space c then lstrip l' else l
  | [] => []
  end.

Definition strip (l : list ascii) : list ascii :=
  reverse (lstrip (reverse (lstrip l))).

(** A run of digits, single underscores allowed between two digits.
    Returns the digits read so far and the text that is left. *)
Fixpoint digitpart (acc : list Z) (l : list ascii) : list Z * list ascii :=
  match l with
  | [] => (acc, [])
  | c :: l' =>
      match digit_val c with
      | Some d => digitpart (acc ++ [d]) l'
      | None =>
          if bool_decide (c = "_"%char) then
            match acc, l' with
            | _ :: _, c' :: _ =>
                if bool_decide (is_Some (digit_val c'))
                then digitpart acc l' else (acc, l)
            | _, _ => (acc, l)
            end
          else (acc, l)
      end
  end.

Definition of_digits (ds : list Z) : Z := foldl (λ n d, 10 * n + d) 0 ds.

(** The exponent part: nothing, or [e] with an optional sign and digits. *)
Definition exponent (l : list ascii) : option Z :=
  match l with
  | [] => Some 0
  | c :: l' =>
      if bool_decide (lower c = "e"%char) then
        let '(neg, l'') :=
          match l' with
          | "-"%char :: r => (true, r)
          | "+"%char :: r => (false, r)
          | _ => (false, l')
          end in
        match digitpart [] l'' with
        | ((_ :: _) as ds, []) => Some (if neg then - of_digits ds else of_digits ds)
        | _ => None
        end
      else None
  end.

(** [(-1)^neg * m * 10^e], rounded to nearest, ties to even. *)
Definition of_decimal (neg : bool) (m e : Z) : float :=
  match m with
  | Z0 => if neg then (-0)%float else 0%float
  | _ =>
      if 0 <=? e
      then SF2Prim (binary_normalize prec emax
                      ((if neg then -m else m) * 10 ^ e) 0 false)
      else
        let '(q, e', loc) := SFdiv_core_binary prec emax m 0 (10 ^ (- e)) 0 in
        SF2Prim (binary_round_aux prec emax neg q e' loc)
  end.

Definition float_of_str (s : string) : option float :=
  let l := strip (list_ascii_of_string s) in
  let '(neg, l) :=
    match l with
    | "-"%char :: r => (true, r)
    | "+"%char :: r => (false, r)
    | _ => (false, l)
    end in
  let word := string_of_list_ascii (lower <$> l) in
  if bool_decide (word = "inf" ∨ word = "infinity")
  then Some (if neg then neg_infinity else infinity)
  else if bool_decide (word = "nan") then Some nan
  else
    let '(ip, l) := digitpart [] l in
    let '(fp, l) :=
      match l with
      | "."%char :: r => digitpart [] r
      | _ => ([], l)
      end in
    match ip ++ fp with
    | [] => None
    | ds =>
        e ← exponent l;
        Some (of_decimal neg (of_digits ds) (e - Z.of_nat (length fp)))
    end.

(** *** [str] of the scalars *)

Fixpoint digits_of_pos (fuel : nat) (n : Z) (rest : string) : string :=
  match fuel with
  | O => rest
  | S fuel' =>
      let rest' := String (datetime.digit n) rest in
      if n <? 10 then rest' else digits_of_pos fuel' (n / 10) rest'
  end.

Definition str_of_int (z : Z) : string :=
  let body := digits_of_pos (S (Z.to_nat (Z.log2 (Z.abs z)))) (Z.abs z) "" in
  if z <? 0 then String "-" body else body.

(** [repr] of a float, a list or a dict is outside the wire format; no
    instance below reads it. *)
Definition repr (v : pyval) : string :=
  match v with
  | PyNone => "None"
  | PyBool true => "True"
  | PyBool false => "False"
  | PyInt z => str_of_int z
  | PyStr s => s
  | PyFloat _ => "<float>"
  | PyList _ => "<list>"
  | PyDict _ => "<dict>"
  end.

Definition lib : pylib :=
  Build_pylib fromisoformat float_of_str repr fsum.

End wire.

(** * Vocabulary of the statements *)

(** [a] is not greater than [b]. *)
Definition not_gt {A} (lt : A → A → bool) (a b : A) : Prop := lt b a = false.

(** [s] is [l] sorted and stable: a rearrangement of [l] in which no
    element is greater than a later one, and in which [a] stands before [b]
    only if it did so in [l] or is smaller than [b]. *)
Definition stable_sorted_of {A} (lt : A → A → bool) (l s : list A) : Prop :=
  s ≡ₚ l
  ∧ StronglySorted (not_gt lt) s
  ∧ ∀ a b, [a; b] `sublist_of` s → [a; b] `sublist_of` l ∨ lt a b = true.

(** What the first loop of [monthly_totals] adds to the entry of a month,
    given the transactions of that month in ledger order. *)
Definition accumulate (t0 : totals) (l : list Transaction) : totals :=
  mkTotals
    (foldl PrimFloat.add (income t0)
       (amount <$> filter (λ tx, kind tx = "income") l))
    (foldl PrimFloat.add (expense t0)
       (amount <$> filter (λ tx, kind tx ≠ "income") l))
    (net t0).

(** The labels of a list in the order of their first occurrence. *)
Definition see (seen : list string) (c : string) : list string :=
  if decide (c ∈ seen) then seen else seen ++ [c].

Definition first_seen (l : list string) : list string := foldl see [] l.

(** The loop of [category_totals] over the transactions of the asked
    kind. *)
Definition fill (buckets : list (string * float)) (txs : list Transaction)
    : list (string * float) :=
  foldl (λ buckets tx, bucket_add (label tx) (amount tx) buckets) buckets txs.

(** A zero of either sign, or a finite or infinite number of positive
    sign. *)
Definition sf_nonneg (x : spec_float) : bool :=
  match x with
  | S754_zero _ => true
  | S754_infinity s | S754_finite s _ _ => negb s
  | S754_nan => false
  end.

(** [a == a] fails for a NaN only. *)
Definition not_nan (a : float) : Prop := (a =? a)%float = true.

(** * Concrete data *)

(** The ledger of the scenario of the specification, and a transaction that
    is not in it. *)
Definition jan15 : datetime.date := datetime.mkdate 2024 1 15 eq_refl.
Definition jan20 : datetime.date := datetime.mkdate 2024 1 20 eq_refl.
Definition feb01 : datetime.date := datetime.mkdate 2024 2 1 eq_refl.

Definition scenario : FinanceBook :=
  mkFinanceBook
    [ mkTransaction jan15 100 "" "" "income";
      mkTransaction jan20 40 "" "Food" "expense";
      mkTransaction feb01 10 "" "Food" "expense" ].

Definition stranger : Transaction := mkTransaction jan15 7 "" "Rent" "expense".

(** A transaction whose amount is a NaN, as [float("nan")] and the [NaN] of
    a JSON document give it, and a ledger that holds it. *)
Definition nan_row : Transaction :=
  mkTransaction jan20 PrimFloat.nan "" "Food" "expense".

Definition nan_ledger : FinanceBook :=
  mkFinanceBook [mkTransaction jan15 100 "" "" "income"; nan_row].

(** Three categories, the second with a NaN total. *)
Definition nan_categories : FinanceBook :=
  mkFinanceBook
    [ mkTransaction jan15 1 "" "a" "expense";
      mkTransaction jan20 PrimFloat.nan "" "b" "expense";
      mkTransaction feb01 2 "" "c" "expense" ].

(** Three categories with the total 50, and one with a greater total. *)
Definition tie_ledger : FinanceBook :=
  mkFinanceBook
    [ mkTransaction jan20 40 "" "Food" "expense";
      mkTransaction jan15 50 "" "" "expense";
      mkTransaction jan15 70 "" "Rent" "expense";
      mkTransaction feb01 10 "" "Food" "expense";
      mkTransaction feb01 50 "" "Fun" "expense";
      mkTransaction feb01 99 "" "Pay" "income" ].

(** A record of the wire format but for its kind. *)
Definition refund_record : pyval :=
  PyDict (<["date" := PyStr "2024-01-15"]>
         (<["amount" := PyFloat 12.5]>
         (<["kind" := PyStr "refund"]> ∅))).

(** A record whose amount is negative, and a document that holds it. *)
Definition negative_record (s : string) : pyval :=
  PyDict (<["date" := PyStr s]>
         (<["amount" := PyFloat (-5)]>
         (<["kind" := PyStr "expense"]> ∅))).

Definition negative_document (s : string) : pyval :=
  PyDict (<["transactions" := PyList [negative_record s]]> ∅).

(** The scenario of the specification: one record with [amount: "abc"]
    among well-formed ones empties the whole load. *)
Definition good_record : pyval :=
  PyDict (<["date" := PyStr "2024-01-15"]>
         (<["amount" := PyInt 100]>
         (<["party" := PyStr ""]>
         (<["category" := PyStr ""]>
         (<["kind" := PyStr "income"]> ∅))))).

Definition abc_record : pyval :=
  PyDict (<["date" := PyStr "2024-01-20"]>
         (<["amount" := PyStr "abc"]>
         (<["kind" := PyStr "expense"]> ∅))).

(** * Properties *)

(** ** The result monad *)

Lemma raises_Raise {A} (e : exn) : raises (@Raise A e).
Proof. by exists e. Qed.

Lemma raises_Ok {A} (a : A) : ¬ raises (Ok a).
Proof. by intros [e ?]. Qed.

Lemma bind_Ok {A B} (r : result A) (k : A → result B) (b : B) :
  r ≫= k = Ok b → ∃ a, r = Ok a ∧ k a = Ok b.
Proof. destruct r as [a|e]; [eauto | done]. Qed.

Lemma rmap_Ok {A B} (f : A → result B) (l : list A) (l' : list B) :
  rmap f l = Ok l' ↔ Forall2 (λ x y, f x = Ok y) l l'.
Proof.
  revert l'. induction l as [|x l IH]; intros l'; simpl.
  - split; [intros [= <-]; constructor | by inversion 1].
  - split.
    + intros (y & Hy & H)%bind_Ok. apply bind_Ok in H as (ys & Hys & [= <-]).
      constructor; [done | by apply IH].
    + inversion 1 as [|? y ? ys Hy Hys]; subst. rewrite Hy. simpl.
      apply IH in Hys. by rewrite Hys.
Qed.

Lemma rmap_raises {A B} (f : A → result B) (l : list A) :
  Exists (λ x, raises (f x)) l → raises (rmap f l).
Proof.
  induction 1 as [x l [e He] | x l _ IH]; simpl.
  - rewrite He. apply raises_Raise.
  - destruct (f x); [| apply raises_Raise]. simpl.
    destruct IH as [e ->]. apply raises_Raise.
Qed.

(** ** Removal by value *)

Lemma list_remove_first (tx : Transaction) (l1 l2 : list Transaction) x :
  Forall (λ y, tx_eqb y tx = false) l1 → tx_eqb x tx = true →
  list_remove tx (l1 ++ x :: l2) = Ok (l1 ++ l2).
Proof.
  intros Hl1 Hx. induction Hl1 as [|y l1 Hy _ IH]; simpl.
  - by rewrite Hx.
  - by rewrite Hy, IH.
Qed.

Lemma list_remove_absent (tx : Transaction) (l : list Transaction) :
  Forall (λ y, tx_eqb y tx = false) l → list_remove tx l = Raise ValueError.
Proof.
  induction 1 as [|y l Hy _ IH]; simpl; [done |]. by rewrite Hy, IH.
Qed.

Lemma first_occurrence (tx : Transaction) (l : list Transaction) :
  Forall (λ y, tx_eqb y tx = false) l
  ∨ ∃ l1 x l2, l = l1 ++ x :: l2
      ∧ Forall (λ y, tx_eqb y tx = false) l1 ∧ tx_eqb x tx = true.
Proof.
  induction l as [|y l IH]; [by left |].
  destruct (tx_eqb y tx) eqn:Hy.
  - right. by exists [], y, l.
  - destruct IH as [IH | (l1 & x & l2 & -> & Hl1 & Hx)].
    + left. by constructor.
    + right. exists (y :: l1), x, l2. by repeat constructor.
Qed.

(** Later duplicates stay: of two equal transactions the first goes. *)
Example remove_keeps_later_duplicate :
  let tx := mkTransaction jan20 40 "" "Food" "expense" in
  after (remove tx) (mkFinanceBook [stranger; tx; stranger; tx])
  = mkFinanceBook [stranger; stranger; tx].
Proof. reflexivity. Qed.

(** ** Deserialization (C2, C9) *)

Lemma from_json_Ok (L : pylib) (data : pyval) (tx : Transaction) :
  from_json L data = Ok tx ↔
  ∃ d a p c k,
    (getitem data "date" ≫= py_fromisoformat L) = Ok d
    ∧ (getitem data "amount" ≫= py_float L) = Ok a
    ∧ get_default data "party" (PyStr "") = Ok p
    ∧ get_default data "category" (PyStr "") = Ok c
    ∧ getitem data "kind" = Ok k
    ∧ tx = mkTransaction d a (py_str L p) (py_str L c) (py_str L k).
Proof.
  unfold from_json. split.
  - intros (d0 & Hd0 & H)%bind_Ok. apply bind_Ok in H as (d & Hd & H).
    apply bind_Ok in H as (a0 & Ha0 & H). apply bind_Ok in H as (a & Ha & H).
    apply bind_Ok in H as (p & Hp & H). apply bind_Ok in H as (c & Hc & H).
    apply bind_Ok in H as (k & Hk & [= <-]).
    exists d, a, p, c, k. rewrite Hd0, Ha0. simpl. by rewrite Hd, Ha.
  - intros (d & a & p & c & k & Hd & Ha & Hp & Hc & Hk & ->).
    apply bind_Ok in Hd as (d0 & -> & Hd). apply bind_Ok in Ha as (a0 & -> & Ha).
    simpl. rewrite Hd. simpl. rewrite Ha. simpl. rewrite Hp, Hc. simpl.
    by rewrite Hk.
Qed.

(** C2, as the code has it: a record without the key [kind] (or one that is
    no dictionary) makes [from_json] raise; a record that has the key is
    never refused for its value: when the date and the amount are read, the
    transaction is returned with [str(data["kind"])] as its kind. *)
Theorem from_json_kind_unchecked (L : pylib) (data : pyval) :
  (raises (getitem data "kind") → raises (from_json L data))
  ∧ (∀ k d a,
       getitem data "kind" = Ok k →
       (getitem data "date" ≫= py_fromisoformat L) = Ok d →
       (getitem data "amount" ≫= py_float L) = Ok a →
       ∃ tx, from_json L data = Ok tx ∧ date tx = d ∧ amount tx = a
             ∧ kind tx = py_str L k).
Proof.
  split.
  - intros Hk. destruct (from_json L data) as [tx|e] eqn:H;
      [| apply raises_Raise].
    apply from_json_Ok in H as (_ & _ & _ & _ & k & _ & _ & _ & _ & Hk' & _).
    rewrite Hk' in Hk. by apply raises_Ok in Hk.
  - intros k d a Hk Hd Ha.
    destruct data as [| | | | | |m]; try done.
    exists (mkTransaction d a
              (py_str L (default (PyStr "") (m !! "party")))
              (py_str L (default (PyStr "") (m !! "category")))
              (py_str L k)).
    split; [| done].
    apply from_json_Ok. by eexists d, a, _, _, k.
Qed.

(** C2, counterexample: the kind of [refund_record] is neither ["income"]
    nor ["expense"], and [from_json] returns a transaction of that kind. *)
Lemma from_json_accepts_refund :
  getitem refund_record "kind" = Ok (PyStr "refund")
  ∧ from_json wire.lib refund_record
    = Ok (mkTransaction jan15 12.5 "" "" "refund").
Proof. split; reflexivity. Qed.

(** C9: with a library that reads some date [s], the record
    [negative_record s] is deserialized to a transaction whose amount is
    [-5.0], which is below zero, and [load_book] puts it into the ledger. *)
Theorem from_json_negative_amount (L : pylib) (s : string) (d : datetime.date) :
  fromisoformat L s = Some d →
  let tx := mkTransaction d (-5) "" "" "expense" in
  from_json L (negative_record s) = Ok tx
  ∧ (amount tx <? 0)%float = true
  ∧ (0 <=? amount tx)%float = false
  ∧ load_book L (File (Ok (negative_document s))) = mkFinanceBook [tx].
Proof.
  intros Hs tx.
  assert (from_json L (negative_record s) = Ok tx) as Hfrom.
  { apply from_json_Ok.
    exists d, (-5)%float, (PyStr ""), (PyStr ""), (PyStr "expense").
    unfold negative_record, getitem, get_default.
    repeat split; simplify_map_eq; simpl; by rewrite ?Hs. }
  repeat split; [done |].
  unfold load_book, negative_document, records, get_default.
  simplify_map_eq. simpl. by rewrite Hfrom.
Qed.

Lemma from_json_negative_amount_witness :
  from_json wire.lib (negative_record "2024-01-15")
    = Ok (mkTransaction jan15 (-5) "" "" "expense")
  ∧ load_book wire.lib (File (Ok (negative_document "2024-01-15")))
    = mkFinanceBook [mkTransaction jan15 (-5) "" "" "expense"].
Proof.
  destruct (from_json_negative_amount wire.lib "2024-01-15" jan15 eq_refl)
    as (H1 & _ & _ & H2).
  by split.
Defined.

(** ** Loading (C3) *)

(** C3: [load_book] never raises and is all or nothing.  An absent file, a
    file that cannot be read or parsed, a document without a sequence of
    records, and a document in which some record is refused by [from_json]
    all give the empty ledger; otherwise the ledger is the records, each
    deserialized, in their order. *)
Theorem load_book_all_or_nothing (L : pylib) :
  load_book L NoFile = mkFinanceBook []
  ∧ (∀ e, load_book L (File (Raise e)) = mkFinanceBook [])
  ∧ (∀ raw, raises (records raw) →
       load_book L (File (Ok raw)) = mkFinanceBook [])
  ∧ (∀ raw items,
       records raw = Ok items →
       Exists (λ item, raises (from_json L item)) items →
       load_book L (File (Ok raw)) = mkFinanceBook [])
  ∧ (∀ raw items txs,
       records raw = Ok items →
       Forall2 (λ item tx, from_json L item = Ok tx) items txs →
       load_book L (File (Ok raw)) = mkFinanceBook txs).
Proof.
  repeat split.
  - intros raw [e He]. unfold load_book. simpl. by rewrite He.
  - intros raw items Hitems Hbad. unfold load_book. simpl. rewrite Hitems.
    simpl. by destruct (rmap_raises _ _ Hbad) as [e ->].
  - intros raw items txs Hitems Hall. unfold load_book. simpl.
    rewrite Hitems. simpl. apply rmap_Ok in Hall. by rewrite Hall.
Qed.

Example from_json_abc_raises :
  from_json wire.lib abc_record = Raise ValueError.
Proof. reflexivity. Qed.

Example load_book_one_bad_record :
  load_book wire.lib
    (File (Ok (PyDict (<["transactions" :=
                          PyList [good_record; abc_record; good_record]]> ∅))))
  = mkFinanceBook []
  ∧ load_book wire.lib
      (File (Ok (PyDict (<["transactions" := PyList [good_record]]> ∅))))
    = mkFinanceBook [mkTransaction jan15 100 "" "" "income"].
Proof. split; reflexivity. Qed.

(** ** Queries leave the ledger alone (C10) *)

Lemma after_for_year (year : Z) (self : FinanceBook) :
  after (FinanceBook.for_year year) self = self.
Proof. reflexivity. Qed.

Lemma after_for_year_and_month (year : Z) (month : option Z) (self : FinanceBook) :
  after (FinanceBook.for_year_and_month year month) self = self.
Proof. by destruct month. Qed.

Lemma after_bind {A B} (m : Meth A) (k : A → Meth B) (self : FinanceBook) :
  after m self = self →
  (∀ a, after (k a) self = self) →
  after (m ≫= k) self = self.
Proof.
  unfold after, mbind, Meth_bind. destruct (m self) as [a self'].
  simpl. intros ->. auto.
Qed.

(** C10: every query returns with the book it started from; of the
    operations on the ledger only [add] and [remove] change the sequence
    of transactions. *)
Theorem queries_leave_ledger (L : pylib) (self : FinanceBook)
    (today : datetime.date) (year : Z) (month : option Z) (kind_ : string) :
  after (FinanceBook.all_years today) self = self
  ∧ after (FinanceBook.for_year year) self = self
  ∧ after (FinanceBook.for_year_and_month year month) self = self
  ∧ after (FinanceBook.monthly_totals year) self = self
  ∧ after (FinanceBook.yearly_totals L year) self = self
  ∧ after (FinanceBook.category_totals year kind_ month) self = self.
Proof.
  assert (after (FinanceBook.monthly_totals year) self = self) as Hmt.
  { unfold FinanceBook.monthly_totals.
    apply after_bind; [apply after_for_year | done]. }
  split; [reflexivity |].
  split; [apply after_for_year |].
  split; [apply after_for_year_and_month |].
  split; [exact Hmt |].
  split.
  - unfold FinanceBook.yearly_totals. apply after_bind; [exact Hmt | done].
  - unfold FinanceBook.category_totals.
    apply after_bind; [apply after_for_year_and_month | done].
Qed.

Example add_changes_ledger :
  after (FinanceBook.add stranger) scenario
  = mkFinanceBook (transactions scenario ++ [stranger]).
Proof. reflexivity. Qed.

(** ** Serialization round trip (C7) *)

Lemma from_json_to_json (L : pylib) (t : Transaction) :
  fromisoformat L (datetime.isoformat (date t)) = Some (date t) →
  from_json L (to_json t) = Ok t.
Proof.
  intros Hiso. destruct t as [d a p c k]. simpl in Hiso.
  apply from_json_Ok. exists d, a, (PyStr p), (PyStr c), (PyStr k).
  unfold to_json, getitem, get_default. simpl.
  repeat split; simplify_map_eq; simpl; by rewrite ?Hiso.
Qed.

(** C7: serializing, deserializing and serializing again gives the record
    of the first serialization, for every transaction whose date the
    library reads back from its ISO form. *)
Theorem to_json_round_trip (L : pylib) (t : Transaction) :
  fromisoformat L (datetime.isoformat (date t)) = Some (date t) →
  ∃ t', from_json L (to_json t) = Ok t' ∧ to_json t' = to_json t.
Proof. intros Hiso. exists t. by rewrite from_json_to_json. Qed.

Lemma to_json_round_trip_witness :
  ∃ t', from_json wire.lib (to_json stranger) = Ok t'
        ∧ to_json t' = to_json stranger.
Proof. apply (to_json_round_trip wire.lib stranger). reflexivity. Defined.

(** X23: What [save_book] writes, [load_book] reads back: on a file that
    holds the document [save_book] built for a ledger, [load_book] returns
    that ledger, transaction by transaction and in the same order, provided
    the library reads the dates of the ledger back from their ISO form.
    The file is taken to parse to the document that was written, as
    [json.loads] does with what [json.dumps] wrote. *)
Lemma load_book_save_book (L : pylib) (book : FinanceBook) :
  Forall (λ t, fromisoformat L (datetime.isoformat (date t)) = Some (date t))
    (transactions book) →
  load_book L (File (Ok (save_book book))) = book.
Proof.
  intros Hiso. destruct book as [txs]. cbn [transactions] in Hiso.
  unfold load_book, save_book, records, get_default.
  cbn [mbind result_bind transactions]. rewrite lookup_insert_eq.
  cbn [default id py_iter mbind result_bind].
  assert (rmap (from_json L) (to_json <$> txs) = Ok txs) as ->; [| done].
  induction Hiso as [|t txs Ht _ IH]; [done |].
  rewrite fmap_cons. cbn [rmap]. rewrite (from_json_to_json L t Ht).
  cbn [mbind result_bind]. by rewrite IH.
Qed.

(** The condition of C7 holds of the reference library at every date. *)

Lemma date_eq (a b : datetime.date) :
  datetime.year a = datetime.year b → datetime.month a = datetime.month b →
  datetime.day a = datetime.day b → a = b.
Proof.
  destruct a as [y m d H], b as [y' m' d' H']. simpl. intros -> -> ->.
  f_equal. apply proof_irrel.
Qed.

Lemma make_date (d : datetime.date) :
  datetime.make (datetime.year d) (datetime.month d) (datetime.day d) = Some d.
Proof.
  destruct d as [y m d H]. simpl. unfold datetime.make.
  cut (∀ b (e : datetime.valid_ymd y m d = b), b = true →
         match b as b0 return datetime.valid_ymd y m d = b0 → option datetime.date with
         | true => λ H0, Some (datetime.mkdate y m d H0)
         | false => λ _, None
         end e = Some (datetime.mkdate y m d H)).
  { intros Hcut. by apply Hcut. }
  intros b e ->. f_equal. by apply date_eq.
Qed.

Lemma date_bounds (d : datetime.date) :
  1 ≤ datetime.year d ≤ 9999 ∧ 1 ≤ datetime.month d ≤ 12
  ∧ 1 ≤ datetime.day d ≤ 31.
Proof.
  destruct d as [y m d H]. simpl. unfold datetime.valid_ymd in H.
  repeat (apply andb_prop in H as [H ?]).
  assert (datetime.days_in_month y m ≤ 31).
  { unfold datetime.days_in_month. repeat case_match; lia. }
  lia.
Qed.

Lemma digit_val_digit (n : Z) :
  wire.digit_val (datetime.digit n) = Some (n `mod` 10).
Proof.
  unfold wire.digit_val, datetime.digit.
  pose proof (Z.mod_pos_bound n 10 eq_refl) as Hn.
  rewrite nat_ascii_embedding by lia.
  replace (Z.of_nat (48 + Z.to_nat (n `mod` 10))) with (48 + n `mod` 10) by lia.
  rewrite (proj2 (Z.leb_le _ _)), (proj2 (Z.leb_le _ _)) by lia.
  simpl. f_equal. lia.
Qed.

Lemma num2_digits (n : Z) :
  0 ≤ n < 100 → wire.num2 (datetime.digit (n / 10)) (datetime.digit n) = Some n.
Proof.
  intros Hn. unfold wire.num2. rewrite !digit_val_digit. simpl. f_equal.
  rewrite (Z.mod_small (n / 10)) by (split; [apply Z.div_pos | apply Z.div_lt_upper_bound]; lia).
  pose proof (Z.div_mod n 10). lia.
Qed.

Lemma wire_fromisoformat_isoformat (d : datetime.date) :
  wire.fromisoformat (datetime.isoformat d) = Some d.
Proof.
  pose proof (date_bounds d) as (Hy & Hm & Hd).
  unfold wire.fromisoformat, datetime.isoformat, datetime.pad4, datetime.pad2.
  cbn [list_ascii_of_string].
  replace (datetime.digit (datetime.year d / 1000))
    with (datetime.digit ((datetime.year d / 100) / 10))
    by (f_equal; rewrite Z.div_div by lia; done).
  assert (wire.num2 (datetime.digit (datetime.year d / 10))
            (datetime.digit (datetime.year d))
          = Some (datetime.year d `mod` 100)) as Hlow.
  { unfold wire.num2. rewrite !digit_val_digit. simpl. f_equal.
    pose proof (Z.div_mod (datetime.year d) 10).
    pose proof (Z.div_mod (datetime.year d) 100).
    pose proof (Z.mod_pos_bound (datetime.year d) 100).
    pose proof (Z.mod_pos_bound (datetime.year d) 10).
    pose proof (Z.mod_pos_bound (datetime.year d / 10) 10).
    pose proof (Z.div_mod (datetime.year d / 10) 10).
    assert (datetime.year d / 10 / 10 = datetime.year d / 100)
      by (rewrite Z.div_div by lia; done).
    lia. }
  rewrite num2_digits, Hlow, !num2_digits;
    try lia; try (split; [apply Z.div_pos | apply Z.div_lt_upper_bound]; lia).
  cbn [mbind option_bind].
  replace (100 * (datetime.year d / 100) + datetime.year d `mod` 100)
    with (datetime.year d) by (pose proof (Z.div_mod (datetime.year d) 100); lia).
  apply make_date.
Qed.

(** ** [sorted] *)

Lemma Sorted_StronglySorted_on {A} (R : relation A) (P : A → Prop) (l : list A) :
  (∀ a b c, P b → R a b → R b c → R a c) →
  Forall P l → Sorted R l → StronglySorted R l.
Proof.
  intros Htrans HP Hl. induction Hl as [|a l Hl IH Ha]; [constructor |].
  apply Forall_cons in HP as [_ HP]. specialize (IH HP).
  constructor; [done |].
  destruct Ha as [|b l Hab]; [constructor |].
  apply StronglySorted_inv in IH as [_ Hb].
  apply Forall_cons in HP as [Pb _].
  constructor; [done |].
  eapply Forall_impl; [exact Hb |]. intros c Hbc. by eapply Htrans.
Qed.

Section sorted_facts.
Context {A : Type} (lt : A → A → bool).

Lemma insort_Permutation (x : A) (l : list A) : insort lt x l ≡ₚ x :: l.
Proof.
  induction l as [|y l IH]; simpl; [done |].
  destruct (lt y x); [| done]. rewrite IH. apply Permutation_swap.
Qed.

Lemma py_sorted_Permutation (l : list A) : py_sorted lt l ≡ₚ l.
Proof.
  induction l as [|x l IH]; simpl; [done |].
  by rewrite insort_Permutation, IH.
Qed.

Lemma elem_of_py_sorted (x : A) (l : list A) : x ∈ py_sorted lt l ↔ x ∈ l.
Proof. by rewrite py_sorted_Permutation. Qed.

(** Stability: [a] stands before [b] in the result only if it stood before
    [b] in the input or is smaller than [b]. *)
Lemma insort_before (x a b : A) (l : list A) :
  [a; b] `sublist_of` insort lt x l →
  [a; b] `sublist_of` x :: l ∨ lt a b = true.
Proof.
  induction l as [|y l IH]; simpl; [by left |].
  destruct (lt y x) eqn:Hyx; [| by left].
  intros [Hab | (l' & [= -> <-] & Hb)]%sublist_cons_r.
  - destruct (IH Hab) as [Hxl | ?]; [left | by right].
    apply sublist_cons_r in Hxl as [Hl | (l' & [= -> <-] & Hl)].
    + by do 2 apply sublist_cons.
    + by apply sublist_skip, sublist_cons.
  - apply singleton_sublist_l in Hb. rewrite insort_Permutation in Hb.
    apply elem_of_cons in Hb as [-> | Hb]; [by right | left].
    apply sublist_cons, sublist_skip. by apply singleton_sublist_l.
Qed.

Lemma py_sorted_before (a b : A) (l : list A) :
  [a; b] `sublist_of` py_sorted lt l →
  [a; b] `sublist_of` l ∨ lt a b = true.
Proof.
  induction l as [|x l IH]; simpl; [by left |].
  intros [Hab | ?]%insort_before; [| by right].
  apply sublist_cons_r in Hab as [Hab | (l' & [= -> <-] & Hb)].
  - destruct (IH Hab) as [? | ?]; [left | by right]. by apply sublist_cons.
  - left. apply sublist_skip. apply singleton_sublist_l.
    apply singleton_sublist_l in Hb. by apply elem_of_py_sorted.
Qed.

(** Order: with an asymmetric [<] no element of the result is greater than
    its successor. *)
Hypothesis lt_asym : ∀ a b, lt a b = true → lt b a = false.

Lemma HdRel_insort (x y : A) (l : list A) :
  not_gt lt y x → HdRel (not_gt lt) y l → HdRel (not_gt lt) y (insort lt x l).
Proof.
  intros Hyx Hl. destruct l as [|z l]; simpl; [by constructor |].
  destruct (lt z x); constructor; [| done]. by inversion Hl.
Qed.

Lemma Sorted_insort (x : A) (l : list A) :
  Sorted (not_gt lt) l → Sorted (not_gt lt) (insort lt x l).
Proof.
  induction 1 as [|y l Hl IH Hy]; simpl; [by repeat constructor |].
  destruct (lt y x) eqn:Hyx.
  - constructor; [done |]. apply HdRel_insort; [| done]. by apply lt_asym.
  - constructor; [by constructor |]. by constructor.
Qed.

Lemma Sorted_py_sorted (l : list A) : Sorted (not_gt lt) (py_sorted lt l).
Proof.
  induction l as [|x l IH]; simpl; [constructor | by apply Sorted_insort].
Qed.

(** Where "not greater" is transitive through the elements of [l],
    [py_sorted] is a stable sort of [l]. *)
Lemma py_sorted_stable_sorted (P : A → Prop) (l : list A) :
  (∀ a b c, P b → not_gt lt a b → not_gt lt b c → not_gt lt a c) →
  Forall P l → stable_sorted_of lt l (py_sorted lt l).
Proof.
  intros Htrans HP. split; [apply py_sorted_Permutation |].
  split; [| intros a b; apply py_sorted_before].
  eapply Sorted_StronglySorted_on; [exact Htrans | | apply Sorted_py_sorted].
  by rewrite py_sorted_Permutation.
Qed.

End sorted_facts.

(** A list without repeats has one stable sort only: whatever algorithm
    [sorted] runs, it returns what [py_sorted] returns. *)

Lemma sublist2_cons {A} (a b x : A) (s : list A) :
  [a; b] `sublist_of` x :: s ↔ [a; b] `sublist_of` s ∨ (a = x ∧ b ∈ s).
Proof.
  rewrite sublist_cons_r. split.
  - intros [? | (l' & [= -> <-] & Hb)]; [by left | right].
    by rewrite <-singleton_sublist_l.
  - intros [? | [-> Hb]]; [by left | right].
    exists [b]. by rewrite singleton_sublist_l.
Qed.

Lemma sublist2_elem_of {A} (a b : A) (s : list A) :
  [a; b] `sublist_of` s → a ∈ s ∧ b ∈ s.
Proof.
  intros H. split; eapply elem_of_sublist; [| exact H | | exact H]; set_solver.
Qed.

Lemma sublist2_antisym {A} (a b : A) (s : list A) :
  NoDup s → [a; b] `sublist_of` s → [b; a] `sublist_of` s → False.
Proof.
  induction s as [|x s IH]; [by intros _ ?%sublist_nil_r |].
  intros [Hx Hs]%NoDup_cons.
  intros [Hab | [-> Hb]]%sublist2_cons [Hba | [-> Ha]]%sublist2_cons.
  - by apply IH.
  - by apply sublist2_elem_of in Hab as [_ ?].
  - by apply sublist2_elem_of in Hba as [_ ?].
  - done.
Qed.

Lemma sublist2_total {A} (a b : A) (s : list A) :
  a ∈ s → b ∈ s → a ≠ b → [a; b] `sublist_of` s ∨ [b; a] `sublist_of` s.
Proof.
  induction s as [|x s IH]; [by intros ?%elem_of_nil |].
  intros [-> | Ha]%elem_of_cons [-> | Hb]%elem_of_cons Hne; try done.
  - left. apply sublist2_cons. by right.
  - right. apply sublist2_cons. by right.
  - destruct (IH Ha Hb Hne); [left | right]; by apply sublist_cons.
Qed.

Lemma StronglySorted_sublist2 {A} (R : relation A) (a b : A) (s : list A) :
  StronglySorted R s → [a; b] `sublist_of` s → R a b.
Proof.
  induction 1 as [|x s _ IH Hx]; [by intros ?%sublist_nil_r |].
  intros [? | [-> Hb]]%sublist2_cons; [by apply IH |].
  rewrite Forall_forall in Hx. by apply Hx.
Qed.

Lemma same_order_eq {A} (s1 s2 : list A) :
  NoDup s1 → s1 ≡ₚ s2 →
  (∀ a b, [a; b] `sublist_of` s1 → [a; b] `sublist_of` s2) →
  s1 = s2.
Proof.
  revert s2. induction s1 as [|x s1 IH]; intros s2 Hnd Hperm Hord.
  - by apply Permutation_nil_l in Hperm.
  - destruct s2 as [|y s2]; [by apply Permutation_nil_r in Hperm |].
    assert (NoDup (y :: s2)) as Hnd2 by (by rewrite <-Hperm).
    apply NoDup_cons in Hnd as [Hx Hnd], Hnd2 as [Hy Hnd2].
    assert (x = y) as ->.
    { assert (y ∈ x :: s1) as [? | Hy1]%elem_of_cons
        by (rewrite Hperm; left); [done |].
      assert ([x; y] `sublist_of` y :: s2) as Hxy.
      { apply Hord, sublist2_cons. by right. }
      apply sublist2_cons in Hxy as [Hxy | [? _]]; [| done].
      by apply sublist2_elem_of in Hxy as [_ ?]. }
    f_equal. apply IH; [done | by apply Permutation_cons_inv in Hperm |].
    intros a b Hab. pose proof (sublist2_elem_of _ _ _ Hab) as [Ha _].
    specialize (Hord a b (sublist_cons _ _ _ Hab)).
    apply sublist2_cons in Hord as [? | [-> _]]; done.
Qed.

Lemma stable_sorted_unique {A} (lt : A → A → bool) (l s1 s2 : list A) :
  NoDup l → stable_sorted_of lt l s1 → stable_sorted_of lt l s2 → s1 = s2.
Proof.
  intros Hnd (Hp1 & Hs1 & Hst1) (Hp2 & Hs2 & Hst2).
  assert (NoDup s1) as Hnd1 by (by rewrite Hp1).
  apply same_order_eq; [done | by rewrite Hp1, Hp2 |].
  intros a b Hab.
  pose proof (sublist2_elem_of _ _ _ Hab) as [Ha Hb].
  rewrite Hp1, <-Hp2 in Ha, Hb.
  assert (a ≠ b) as Hne.
  { intros ->. by eapply (sublist2_antisym b b s1). }
  destruct (sublist2_total a b s2 Ha Hb Hne) as [? | Hba]; [done | exfalso].
  pose proof (StronglySorted_sublist2 _ _ _ _ Hs1 Hab) as H1.
  pose proof (StronglySorted_sublist2 _ _ _ _ Hs2 Hba) as H2.
  unfold not_gt in H1, H2.
  destruct (Hst1 a b Hab) as [Hl1 | ?]; [| congruence].
  destruct (Hst2 b a Hba) as [Hl2 | ?]; [| congruence].
  by apply (sublist2_antisym a b l).
Qed.

(** ** The years of the ledger (C8) *)

Lemma StronglySorted_lt_py_sorted (l : list Z) :
  NoDup l → StronglySorted Z.lt (py_sorted Z.ltb l).
Proof.
  intros Hnd.
  assert (StronglySorted (not_gt Z.ltb) (py_sorted Z.ltb l)) as Hle.
  { apply Sorted_StronglySorted.
    - unfold not_gt. intros a b c ?%Z.ltb_ge ?%Z.ltb_ge. apply Z.ltb_ge. lia.
    - apply Sorted_py_sorted. intros a b ?%Z.ltb_lt. apply Z.ltb_ge. lia. }
  rewrite <-(py_sorted_Permutation Z.ltb) in Hnd.
  induction Hle as [|x k _ IH Hx]; [constructor |].
  apply NoDup_cons in Hnd as [Hx' Hnd].
  constructor; [by apply IH |].
  rewrite Forall_forall in Hx |- *. intros y Hy.
  specialize (Hx y Hy). apply Z.ltb_ge in Hx.
  assert (x ≠ y) by (by intros ->). lia.
Qed.

(** C8: on an empty ledger [all_years] is the one-element list of the
    current year; otherwise it is strictly ascending (so without repeats)
    and holds exactly the years of the dates of the ledger. *)
Theorem all_years_spec (today : datetime.date) (self : FinanceBook) :
  let years := value (FinanceBook.all_years today) self in
  (transactions self = [] → years = [datetime.year today])
  ∧ (transactions self ≠ [] →
       StronglySorted Z.lt years
       ∧ ∀ y, y ∈ years ↔
              ∃ tx, tx ∈ transactions self ∧ datetime.year (date tx) = y).
Proof.
  unfold value, FinanceBook.all_years. simpl.
  set (S := list_to_set _ : gset Z).
  assert (∀ y, y ∈ py_sorted Z.ltb (elements S) ↔
            ∃ tx, tx ∈ transactions self ∧ datetime.year (date tx) = y) as Hin.
  { intros y. rewrite elem_of_py_sorted, elem_of_elements. unfold S.
    rewrite elem_of_list_to_set, list_elem_of_fmap.
    split; intros (tx & ? & ?); by exists tx. }
  split.
  - intros Hnil. unfold S. rewrite Hnil. simpl.
    by rewrite elements_empty.
  - intros Hne. destruct (py_sorted Z.ltb (elements S)) as [|y0 ys] eqn:Hys.
    + destruct (transactions self) as [|tx txs]; [done |].
      exfalso. eapply (not_elem_of_nil (datetime.year (date tx))).
      apply Hin. exists tx. split; [left | done].
    + split; [| done]. rewrite <-Hys.
      apply StronglySorted_lt_py_sorted, NoDup_elements.
Qed.

Example all_years_scenario :
  value (FinanceBook.all_years jan15)
    (mkFinanceBook (mkTransaction (datetime.mkdate 2023 7 1 eq_refl) 1 "" "" "income"
                    :: transactions scenario))
  = [2023; 2024]
  ∧ value (FinanceBook.all_years jan15) (mkFinanceBook []) = [2024].
Proof. split; reflexivity. Qed.

(** ** Dictionaries *)

Section pydict_facts.
Context {K V : Type} `{EqDecision K}.
Implicit Types (d : list (K * V)) (k : K) (v : V).

Lemma dict_get_set k k' v d :
  dict_get k (dict_set k' v d) = if decide (k = k') then Some v else dict_get k d.
Proof.
  induction d as [|[k0 v0] d IH]; simpl.
  - repeat case_decide; congruence.
  - destruct (decide (k' = k0)) as [-> | Hne]; simpl;
      repeat case_decide; congruence.
Qed.

Lemma dict_get_is_Some k d : k ∈ dict_keys d → is_Some (dict_get k d).
Proof.
  unfold dict_keys. induction d as [|[k0 v0] d IH]; simpl.
  - by intros ?%not_elem_of_nil.
  - case_decide; [by eexists |]. intros [? | ?]%elem_of_cons; [done | auto].
Qed.

Lemma dict_keys_set_old k v d :
  k ∈ dict_keys d → dict_keys (dict_set k v d) = dict_keys d.
Proof.
  unfold dict_keys. induction d as [|[k0 v0] d IH]; simpl.
  - by intros ?%not_elem_of_nil.
  - case_decide; [done |]. intros [? | ?]%elem_of_cons; [done |].
    simpl. f_equal. auto.
Qed.

Lemma dict_keys_set_new k v d :
  k ∉ dict_keys d → dict_keys (dict_set k v d) = dict_keys d ++ [k].
Proof.
  unfold dict_keys. induction d as [|[k0 v0] d IH]; simpl; [done |].
  intros [? ?]%not_elem_of_cons. case_decide; [done |]. simpl. f_equal. auto.
Qed.

End pydict_facts.

(** ** Monthly totals (C4) *)

Lemma elem_of_months (m : Z) : m ∈ months ↔ 1 ≤ m ≤ 12.
Proof. unfold months. rewrite !elem_of_cons, elem_of_nil. lia. Qed.

Lemma NoDup_months : NoDup months.
Proof.
  unfold months.
  repeat (apply NoDup_cons_2; [rewrite ?elem_of_cons, elem_of_nil; lia |]).
  apply NoDup_nil_2.
Qed.

Lemma month_in_months (d : datetime.date) : datetime.month d ∈ months.
Proof. apply elem_of_months. apply date_bounds. Qed.

Lemma update_month_Ok (f : totals → totals) (m : Z) (tot : list (Z * totals)) :
  m ∈ dict_keys tot →
  ∃ t, dict_get m tot = Some t
       ∧ update_month f m tot = Ok (dict_set m (f t) tot)
       ∧ dict_keys (dict_set m (f t) tot) = dict_keys tot.
Proof.
  intros Hm. destruct (dict_get_is_Some _ _ Hm) as [t Ht]. exists t.
  unfold update_month. rewrite Ht. by rewrite dict_keys_set_old.
Qed.

Lemma accumulate_nil (t0 : totals) : accumulate t0 [] = t0.
Proof. by destruct t0. Qed.

Lemma accumulate_cons (t0 : totals) (tx : Transaction) (l : list Transaction) :
  accumulate t0 (tx :: l)
  = accumulate (if decide (kind tx = "income")
                then add_income (amount tx) t0
                else add_expense (amount tx) t0) l.
Proof.
  unfold accumulate. rewrite !filter_cons.
  destruct (decide (kind tx = "income")) as [Hk | Hk].
  - by rewrite decide_False by (by intros ?).
  - by rewrite decide_True by done.
Qed.

Lemma rfold_book_transaction (txs : list Transaction) (tot : list (Z * totals)) :
  dict_keys tot = months →
  ∃ tot', rfold book_transaction tot txs = Ok tot'
    ∧ dict_keys tot' = months
    ∧ ∀ m t0, dict_get m tot = Some t0 →
        dict_get m tot'
        = Some (accumulate t0
                  (filter (λ tx, datetime.month (date tx) = m) txs)).
Proof.
  revert tot. induction txs as [|tx txs IH]; intros tot Hkeys.
  - exists tot. split; [done |]. split; [done |]. intros m t0 ->.
    by rewrite filter_nil, accumulate_nil.
  - set (m0 := datetime.month (date tx)).
    set (f := if decide (kind tx = "income")
              then add_income (amount tx) else add_expense (amount tx)).
    assert (book_transaction tot tx = update_month f m0 tot) as Hstep.
    { unfold book_transaction, f. by case_decide. }
    destruct (update_month_Ok f m0 tot) as (t & Ht & Hupd & Hkeys').
    { rewrite Hkeys. apply month_in_months. }
    destruct (IH (dict_set m0 (f t) tot)) as (tot' & Hfold & Hk' & Hget).
    { by rewrite Hkeys'. }
    exists tot'. simpl. rewrite Hstep, Hupd. simpl.
    split; [done |]. split; [done |].
    intros m t0 Hm. rewrite filter_cons. fold m0.
    destruct (decide (m0 = m)) as [<- | Hne].
    + rewrite accumulate_cons. rewrite Hm in Ht. injection Ht as <-.
      rewrite (Hget m0 (f t0)).
      * unfold f. by case_decide.
      * rewrite dict_get_set. by rewrite decide_True.
    + apply Hget. rewrite dict_get_set. by rewrite decide_False.
Qed.

Lemma rfold_set_net (ks : list Z) (tot : list (Z * totals)) :
  NoDup ks → ks ⊆ dict_keys tot →
  ∃ tot', rfold (λ tot m, update_month set_net m tot) tot ks = Ok tot'
    ∧ dict_keys tot' = dict_keys tot
    ∧ ∀ m, dict_get m tot'
           = if decide (m ∈ ks) then set_net <$> dict_get m tot
             else dict_get m tot.
Proof.
  revert tot. induction ks as [|k ks IH]; intros tot Hnd Hsub.
  - exists tot. split; [done |]. split; [done |]. intros m.
    by rewrite decide_False by apply not_elem_of_nil.
  - apply NoDup_cons in Hnd as [Hk Hnd].
    destruct (update_month_Ok set_net k tot) as (t & Ht & Hupd & Hkeys).
    { apply Hsub. left. }
    destruct (IH (dict_set k (set_net t) tot)) as (tot' & Hfold & Hk' & Hget);
      [done | |].
    { rewrite Hkeys. intros x Hx. apply Hsub. by right. }
    exists tot'. simpl. rewrite Hupd. simpl.
    split; [done |]. split; [congruence |].
    intros m. rewrite Hget, dict_get_set.
    destruct (decide (m = k)) as [-> | Hne].
    + rewrite decide_False by done. rewrite decide_True by left.
      by rewrite Ht.
    + destruct (decide (m ∈ ks)).
      * by rewrite decide_True by (by right).
      * rewrite decide_False; [done |]. by intros [? | ?]%elem_of_cons.
Qed.

Lemma monthly_totals_unfold (year : Z) (self : FinanceBook) :
  value (FinanceBook.monthly_totals year) self
  = (tot ← rfold book_transaction
             ((λ m, (m, mkTotals fzero fzero fzero)) <$> months)
             (value (FinanceBook.for_year year) self);
     rfold (λ tot m, update_month set_net m tot) tot (dict_keys tot)).
Proof. reflexivity. Qed.

Lemma monthly_totals_Ok (year : Z) (self : FinanceBook) :
  ∃ mt, value (FinanceBook.monthly_totals year) self = Ok mt
    ∧ dict_keys mt = months
    ∧ ∀ m, m ∈ months →
        dict_get m mt
        = Some (set_net
                  (accumulate (mkTotals fzero fzero fzero)
                     (value (FinanceBook.for_year_and_month year (Some m))
                        self))).
Proof.
  rewrite monthly_totals_unfold.
  set (tot0 := (λ m, (m, mkTotals fzero fzero fzero)) <$> months).
  set (txs := value (FinanceBook.for_year year) self).
  destruct (rfold_book_transaction txs tot0) as (tot1 & H1 & Hk1 & Hget1);
    [done |].
  destruct (rfold_set_net (dict_keys tot1) tot1) as (mt & H2 & Hk2 & Hget2);
    [rewrite Hk1; apply NoDup_months | done |].
  exists mt. rewrite H1. simpl. rewrite H2.
  split; [done |]. split; [congruence |].
  intros m Hm. rewrite Hget2, Hk1, decide_True by done.
  rewrite (Hget1 m (mkTotals fzero fzero fzero)).
  - simpl. do 3 f_equal. unfold txs, value. simpl.
    rewrite list_filter_filter.
    apply list_filter_iff. intros tx. tauto.
  - unfold tot0, months in *. rewrite !elem_of_cons, elem_of_nil in Hm.
    by repeat (destruct Hm as [-> | Hm]; [done |]).
Qed.




(** The scenario of the specification. *)
Example monthly_totals_scenario :
  (mt ← value (FinanceBook.monthly_totals 2024) scenario;
   Ok (dict_get 1 mt, dict_get 2 mt, dict_get 3 mt))
  = Ok (Some (mkTotals 100 40 60), Some (mkTotals 0 10 (-10)),
        Some (mkTotals 0 0 0)).
Proof. reflexivity. Qed.

(** ** Yearly totals (C6) *)

Lemma rmap_fmap {A B} (f : A → result B) (g : A → B) (l : list A) :
  (∀ x, x ∈ l → f x = Ok (g x)) → rmap f l = Ok (g <$> l).
Proof.
  induction l as [|x l IH]; intros Hf; simpl; [done |].
  rewrite Hf by left. simpl. rewrite IH; [done |].
  intros y Hy. apply Hf. by right.
Qed.

(** C6: the income of [yearly_totals] is the sum ([sum]) of the incomes of
    the twelve entries of [monthly_totals], taken from January to December;
    its expense is the sum of their expenses; its net is income minus
    expense. *)
Theorem yearly_totals_spec (L : pylib) (year : Z) (self : FinanceBook) :
  ∃ mt ts yt,
    value (FinanceBook.monthly_totals year) self = Ok mt
    ∧ Forall2 (λ m t, dict_get m mt = Some t) months ts
    ∧ value (FinanceBook.yearly_totals L year) self = Ok yt
    ∧ income yt = py_sum L (income <$> ts)
    ∧ expense yt = py_sum L (expense <$> ts)
    ∧ net yt = (income yt - expense yt)%float.
Proof.
  destruct (monthly_totals_Ok year self) as (mt & Hmt & Hkeys & Hget).
  set (entry := λ m, set_net
         (accumulate (mkTotals fzero fzero fzero)
            (value (FinanceBook.for_year_and_month year (Some m)) self))).
  exists mt, (entry <$> months).
  eexists. split; [done |]. split.
  { apply Forall2_fmap_r, Forall_Forall2_diag, Forall_forall.
    intros m Hm. by apply Hget. }
  assert (value (FinanceBook.yearly_totals L year) self
          = (mt ← value (FinanceBook.monthly_totals year) self;
             inc ← rmap (λ m, t ← of_option KeyError (dict_get m mt);
                              Ok (income t)) (dict_keys mt);
             exp ← rmap (λ m, t ← of_option KeyError (dict_get m mt);
                              Ok (expense t)) (dict_keys mt);
             Ok (mkTotals (py_sum L inc) (py_sum L exp)
                   (py_sum L inc - py_sum L exp)))) as -> by reflexivity.
  assert (rmap (λ m, t ← of_option KeyError (dict_get m mt); Ok (income t))
            months = Ok ((λ m, income (entry m)) <$> months)) as Hinc.
  { apply rmap_fmap. intros m Hm. by rewrite Hget. }
  assert (rmap (λ m, t ← of_option KeyError (dict_get m mt); Ok (expense t))
            months = Ok ((λ m, expense (entry m)) <$> months)) as Hexp.
  { apply rmap_fmap. intros m Hm. by rewrite Hget. }
  rewrite Hmt. unfold mbind at 1, result_bind at 1.
  rewrite Hkeys, Hinc, Hexp. unfold mbind, result_bind.
  split; [reflexivity |]. cbn [income expense net].
  by rewrite <-!list_fmap_compose.
Qed.

Example yearly_totals_scenario :
  value (FinanceBook.yearly_totals wire.lib 2024) scenario
  = Ok (mkTotals 100 50 50).
Proof. reflexivity. Qed.

(** ** Floats: order and sign of a sum *)

Lemma SFcompare_swap (x y : spec_float) :
  SFcompare y x = CompOpp <$> SFcompare x y.
Proof.
  destruct x as [sx|sx| |sx mx ex], y as [sy|sy| |sy my ey]; simpl;
    try done; try (by destruct sx); try (by destruct sy);
    try (by destruct sx, sy).
  destruct sx, sy; simpl; try done; f_equal;
    rewrite (Z.compare_antisym ex ey);
    change (Pos.compare_cont Eq my mx) with (Pos.compare my mx);
    change (Pos.compare_cont Eq mx my) with (Pos.compare mx my);
    rewrite (Pos.compare_antisym mx my);
    destruct (ex ?= ey)%Z; simpl; try done;
    by destruct (mx ?= my)%positive.
Qed.

(** [<] on floats is asymmetric. *)
Lemma float_ltb_asym (a b : float) :
  (a <? b)%float = true → (b <? a)%float = false.
Proof.
  rewrite !FloatAxioms.ltb_spec. unfold SFltb.
  rewrite (SFcompare_swap (Prim2SF a) (Prim2SF b)).
  by destruct (SFcompare (Prim2SF a) (Prim2SF b)) as [[]|].
Qed.

Lemma float_leb_zero (a : float) : (0 <=? a)%float = sf_nonneg (Prim2SF a).
Proof.
  rewrite FloatAxioms.leb_spec. change (Prim2SF 0) with (S754_zero false).
  by destruct (Prim2SF a) as [s|[]| |[] m e].
Qed.

Lemma iter_pos_invariant {A} (P : A → Prop) (f : A → A) (n : positive) (x : A) :
  (∀ y, P y → P (f y)) → P x → P (SpecFloat.iter_pos f n x).
Proof.
  intros Hf. revert x. induction n as [n IH|n IH|]; simpl; auto.
Qed.

Lemma shr_1_nonneg (mrs : shr_record) : 0 ≤ shr_m mrs → 0 ≤ shr_m (shr_1 mrs).
Proof. destruct mrs as [[|[p|p|]|[p|p|]] r s]; simpl; lia. Qed.

Lemma shr_fexp_nonneg (m e : Z) (l : location) :
  0 ≤ m → 0 ≤ shr_m (shr_fexp prec emax m e l).1.
Proof.
  intros Hm. unfold shr_fexp, shr.
  assert (0 ≤ shr_m (shr_record_of_loc m l)) by (by destruct l as [|[]]).
  destruct (fexp prec emax (Zdigits2 m + e) - e) as [|p|p]; simpl; try done.
  by apply iter_pos_invariant; [apply shr_1_nonneg |].
Qed.

Lemma round_nearest_even_nonneg (m : Z) (l : location) :
  0 ≤ m → 0 ≤ round_nearest_even m l.
Proof.
  intros Hm. unfold round_nearest_even.
  destruct l as [|[]]; try done; [destruct (Z.even m) |]; lia.
Qed.

Lemma binary_round_aux_nonneg (m e : Z) (l : location) :
  0 ≤ m → sf_nonneg (binary_round_aux prec emax false m e l) = true.
Proof.
  intros Hm. unfold binary_round_aux.
  pose proof (shr_fexp_nonneg m e l Hm) as H1.
  destruct (shr_fexp prec emax m e l) as [mrs' e']. simpl in H1.
  pose proof (shr_fexp_nonneg _ e' loc_Exact
                (round_nearest_even_nonneg _ (loc_of_shr_record mrs') H1)) as H2.
  destruct (shr_fexp prec emax _ e' loc_Exact) as [mrs'' e'']. simpl in H2.
  destruct (shr_m mrs'') as [|p|p]; [done | | lia].
  by destruct (e'' <=? emax - prec).
Qed.

Lemma SFadd_nonneg (x y : spec_float) :
  sf_nonneg x = true → sf_nonneg y = true →
  sf_nonneg (SFadd prec emax x y) = true.
Proof.
  destruct x as [sx|[]| |[] mx ex], y as [sy|[]| |[] my ey]; try done.
  - by destruct sx, sy.
  - intros _ _. unfold SFadd, binary_normalize, cond_Zopp.
    change (Z.pos ?p + Z.pos ?q) with (Z.pos (p + q)).
    unfold binary_round. destruct (shl_align _ _ _) as [mz ez].
    by apply binary_round_aux_nonneg.
Qed.

(** A sum of two numbers that are [>= 0] is [>= 0]. *)
Lemma float_add_nonneg (a b : float) :
  (0 <=? a)%float = true → (0 <=? b)%float = true →
  (0 <=? a + b)%float = true.
Proof.
  rewrite !float_leb_zero, FloatAxioms.add_spec. apply SFadd_nonneg.
Qed.

Lemma foldl_add_nonneg (l : list float) (a : float) :
  (0 <=? a)%float = true →
  Forall (λ x, (0 <=? x)%float = true) l →
  (0 <=? foldl PrimFloat.add a l)%float = true.
Proof.
  intros Ha Hl. revert a Ha. induction Hl as [|x l Hx _ IH]; intros a Ha;
    simpl; [done |].
  by apply IH, float_add_nonneg.
Qed.

Lemma not_nan_Prim2SF (a : float) : not_nan a → Prim2SF a ≠ S754_nan.
Proof.
  unfold not_nan. rewrite FloatAxioms.eqb_spec. unfold SFeqb. by intros H Hn; rewrite Hn in H.
Qed.

Lemma float_nonneg_not_nan (a : float) : (0 <=? a)%float = true → not_nan a.
Proof.
  unfold not_nan. rewrite float_leb_zero, FloatAxioms.eqb_spec. unfold SFeqb.
  destruct (Prim2SF a) as [s|[]| |[] m e]; simpl; try done.
  by rewrite Z.compare_refl, Pos.compare_cont_refl.
Qed.

Ltac compare_cases :=
  repeat match goal with
    | H : context [(?a ?= ?b)%Z] |- _ =>
        destruct (Z.compare_spec a b); try subst; try lia
    | |- context [(?a ?= ?b)%Z] =>
        destruct (Z.compare_spec a b); try subst; try lia
    | H : context [Pos.compare_cont Eq ?a ?b] |- _ =>
        change (Pos.compare_cont Eq a b) with (Pos.compare a b) in H
    | |- context [Pos.compare_cont Eq ?a ?b] =>
        change (Pos.compare_cont Eq a b) with (Pos.compare a b)
    | H : context [(?a ?= ?b)%positive] |- _ =>
        destruct (Pos.compare_spec a b); try subst; try lia
    | |- context [(?a ?= ?b)%positive] =>
        destruct (Pos.compare_spec a b); try subst; try lia
    end.

Lemma SFltb_neg_trans (x y z : spec_float) :
  y ≠ S754_nan →
  SFltb x y = false → SFltb y z = false → SFltb x z = false.
Proof.
  unfold SFltb.
  destruct x as [sx|sx| |sx mx ex], y as [sy|sy| |sy my ey],
    z as [sz|sz| |sz mz ez]; try done; simpl;
    try (destruct sx); try (destruct sy); try (destruct sz); try done;
    intros _ H1 H2; compare_cases; simpl in *; try done.
Qed.

(** On floats that are no NaN, "not smaller than" is transitive. *)
Lemma float_ltb_neg_trans (a b c : float) :
  not_nan b →
  (a <? b)%float = false → (b <? c)%float = false → (a <? c)%float = false.
Proof.
  intros Hb%not_nan_Prim2SF. rewrite !FloatAxioms.ltb_spec. by apply SFltb_neg_trans.
Qed.

(** ** Category totals (C5) *)

Lemma foldl_filter {A B} (P : A → Prop) `{!∀ x, Decision (P x)}
    (f : B → A → B) (b : B) (l : list A) :
  foldl (λ b x, if decide (P x) then f b x else b) b l = foldl f b (filter P l).
Proof.
  revert b. induction l as [|x l IH]; intros b; simpl; [done |].
  rewrite filter_cons, IH. by destruct (decide (P x)).
Qed.

Lemma category_totals_unfold (year : Z) (kind_ : string) (month : option Z)
    (self : FinanceBook) :
  value (FinanceBook.category_totals year kind_ month) self
  = py_sorted_reverse (λ kv kv', kv.2 <? kv'.2)%float
      (fill [] (filter (λ tx, kind tx = kind_)
                  (value (FinanceBook.for_year_and_month year month) self))).
Proof.
  unfold fill. rewrite <-foldl_filter.
  unfold value, FinanceBook.category_totals. by destruct month.
Qed.

Lemma dict_keys_bucket_add (c : string) (a : float) (b : list (string * float)) :
  dict_keys (bucket_add c a b) = see (dict_keys b) c.
Proof.
  unfold bucket_add, see. destruct (decide (c ∈ dict_keys b)).
  - by apply dict_keys_set_old.
  - by apply dict_keys_set_new.
Qed.

Lemma dict_keys_fill (txs : list Transaction) (b : list (string * float)) :
  dict_keys (fill b txs) = foldl see (dict_keys b) (label <$> txs).
Proof.
  revert b. induction txs as [|tx txs IH]; intros b; simpl; [done |].
  unfold fill in *. simpl. by rewrite IH, dict_keys_bucket_add.
Qed.

Lemma foldl_see_spec (l seen : list string) :
  NoDup seen →
  NoDup (foldl see seen l) ∧ ∀ c, c ∈ foldl see seen l ↔ c ∈ seen ∨ c ∈ l.
Proof.
  revert seen. induction l as [|x l IH]; intros seen Hnd; simpl.
  - split; [done |]. intros c. rewrite elem_of_nil. tauto.
  - destruct (IH (see seen x)) as [Hnd' Hin].
    { unfold see. case_decide; [done |]. apply NoDup_app.
      split; [done |]. split; [| apply NoDup_singleton].
      by intros y Hy ->%list_elem_of_singleton. }
    split; [done |]. intros c. rewrite Hin, elem_of_cons. unfold see.
    case_decide; [| rewrite elem_of_app, list_elem_of_singleton];
      split; intros; destruct_or?; subst; auto.
Qed.

Lemma dict_get_fill (c : string) (txs : list Transaction)
    (b : list (string * float)) :
  dict_get c (fill b txs)
  = match filter (λ tx, label tx = c) txs with
    | [] => dict_get c b
    | l => Some (foldl PrimFloat.add (default fzero (dict_get c b))
                   (amount <$> l))
    end.
Proof.
  revert b. induction txs as [|tx txs IH]; intros b; [done |].
  change (fill b (tx :: txs)) with (fill (bucket_add (label tx) (amount tx) b) txs).
  rewrite IH, filter_cons. unfold bucket_add at 1 2. rewrite dict_get_set.
  destruct (decide (label tx = c)) as [-> | Hne].
  - rewrite decide_True by done. simpl.
    by destruct (filter _ txs).
  - by rewrite decide_False by done.
Qed.

Lemma elem_of_dict (k : string) (v : float) (d : list (string * float)) :
  NoDup (dict_keys d) → (k, v) ∈ d → dict_get k d = Some v.
Proof.
  unfold dict_keys. induction d as [|[k0 v0] d IH]; simpl.
  - by intros _ ?%elem_of_nil.
  - intros [Hk0 Hnd]%NoDup_cons [[= -> ->] | Hin]%elem_of_cons.
    + by rewrite decide_True.
    + rewrite decide_False; [by apply IH |].
      intros ->. apply Hk0. apply list_elem_of_fmap. by exists (k0, v).
Qed.

(** C5, as the code has it.  [txs] are the transactions of the asked year,
    month (if one is given) and kind, in ledger order, and the bucket of a
    transaction is its category, or ["(uncategorized)"] for the empty
    category.  [category_totals] returns one pair for each bucket that
    occurs among [txs]; the total of a pair is the sum of the amounts of the
    transactions of its bucket, in ledger order, and is [>= 0], and no NaN,
    when all those amounts are [>= 0].  When no total is a NaN, no total is
    smaller than a later one, and a pair stands before another one only if
    its total is greater or its bucket was seen first. *)
Theorem category_totals_spec (year : Z) (kind_ : string) (month : option Z)
    (self : FinanceBook) :
  let txs :=
    match month with
    | None =>
        filter (λ tx, datetime.year (date tx) = year ∧ kind tx = kind_)
          (transactions self)
    | Some m =>
        filter (λ tx, datetime.year (date tx) = year
                      ∧ datetime.month (date tx) = m ∧ kind tx = kind_)
          (transactions self)
    end in
  let bucket := λ tx : Transaction,
    if decide (category tx = "") then "(uncategorized)" else category tx in
  let result := value (FinanceBook.category_totals year kind_ month) self in
  NoDup result.*1
  ∧ (∀ c, c ∈ result.*1 ↔ ∃ tx, tx ∈ txs ∧ bucket tx = c)
  ∧ (∀ c t, (c, t) ∈ result →
       t = fsum (amount <$> filter (λ tx, bucket tx = c) txs))
  ∧ (Forall (λ tx, (0 <=? amount tx)%float = true) txs →
     Forall (λ kv, (0 <=? kv.2)%float = true ∧ not_nan kv.2) result)
  ∧ (Forall (λ kv, not_nan kv.2) result →
     StronglySorted (λ kv kv', (kv.2 <? kv'.2)%float = false) result
     ∧ ∀ p q, [p; q] `sublist_of` result →
         (q.2 <? p.2)%float = true
         ∨ [p.1; q.1] `sublist_of` first_seen (bucket <$> txs)).
Proof.
  intros txs0 bucket result.
  set (txs := filter (λ tx, kind tx = kind_)
                (value (FinanceBook.for_year_and_month year month) self)).
  assert (txs0 = txs) as Htxs.
  { unfold txs0, txs, value. destruct month as [m|]; simpl;
      rewrite list_filter_filter; apply list_filter_iff; intros tx; tauto. }
  assert (bucket = label) as Hbucket by done.
  clearbody txs0 bucket. subst txs0 bucket.
  set (lt := λ kv kv' : string * float, (kv.2 <? kv'.2)%float).
  set (buckets := fill [] txs).
  assert (result = py_sorted (λ x y, lt y x) buckets) as Hres
    by apply category_totals_unfold.
  assert (result ≡ₚ buckets) as Hperm
    by (rewrite Hres; apply py_sorted_Permutation).
  assert (buckets.*1 = first_seen (label <$> txs)) as Hkeys
    by apply (dict_keys_fill txs []).
  destruct (foldl_see_spec (label <$> txs) [] (NoDup_nil_2)) as [Hnd Hin].
  fold (first_seen (label <$> txs)) in Hnd, Hin. rewrite <-Hkeys in Hnd, Hin.
  assert (∀ c t, (c, t) ∈ result →
            t = fsum (amount <$> filter (λ tx, label tx = c) txs)) as Htot.
  { intros c t Hct. rewrite Hperm in Hct.
    apply elem_of_dict in Hct; [| done]. unfold buckets in Hct.
    rewrite dict_get_fill in Hct. simpl in Hct.
    by destruct (filter _ txs); [| injection Hct as <-]. }
  split; [by rewrite Hperm |]. split.
  { intros c. rewrite Hperm, Hin, elem_of_nil, list_elem_of_fmap.
    split; [intros [[] | (tx & -> & ?)]; by exists tx
           | intros (tx & ? & <-); right; by exists tx]. }
  split; [done |]. split.
  { intros Hpos. apply Forall_forall. intros [c t] Hct.
    assert ((0 <=? t)%float = true) as Ht.
    { rewrite (Htot c t Hct). apply foldl_add_nonneg; [done |].
      apply Forall_fmap, Forall_forall.
      intros tx [_ Htx]%list_elem_of_filter.
      rewrite Forall_forall in Hpos. by apply Hpos. }
    split; [done |]. by apply float_nonneg_not_nan. }
  intros Hnan. split.
  { assert (Sorted (λ kv kv', lt kv kv' = false) result) as Hsorted.
    { rewrite Hres. apply (Sorted_py_sorted (λ x y, lt y x)).
      intros a b. apply float_ltb_asym. }
    eapply Sorted_StronglySorted_on; [| exact Hnan | done].
    intros a b c. apply float_ltb_neg_trans. }
  intros p q Hpq. rewrite Hres in Hpq.
  apply py_sorted_before in Hpq as [Hpq | Hpq]; [right | by left].
  rewrite <-Hkeys. by apply (fmap_sublist fst) in Hpq.
Qed.

(** C5 where it applies: the ledger of the tie has no NaN, so its pairs
    are in descending order, pairs with one total in first-seen order. *)
Lemma category_totals_spec_witness :
  let result :=
    value (FinanceBook.category_totals 2024 "expense" None) tie_ledger in
  StronglySorted (λ kv kv', (kv.2 <? kv'.2)%float = false) result
  ∧ ∀ p q, [p; q] `sublist_of` result →
      (q.2 <? p.2)%float = true
      ∨ [p.1; q.1] `sublist_of`
          first_seen
            ((λ tx : Transaction,
                if decide (category tx = "") then "(uncategorized)"
                else category tx)
             <$> filter (λ tx, datetime.year (date tx) = 2024
                               ∧ kind tx = "expense")
                   (transactions tie_ledger)).
Proof.
  apply (category_totals_spec 2024 "expense" None tie_ledger).
  by repeat constructor.
Defined.

(** C5, counterexample: three expenses of 2024 in the categories a, b
    and c with the amounts 1, NaN and 2.  Every comparison with the NaN is
    false, [sorted] leaves the pairs as they are, and the total 1 stands
    before the total 2. *)
Lemma category_totals_nan_not_descending :
  value (FinanceBook.category_totals 2024 "expense" None) nan_categories
  = [("a", 1%float); ("b", PrimFloat.nan); ("c", 2%float)]
  ∧ (1 <? 2)%float = true.
Proof. split; reflexivity. Qed.

(** When no total is a NaN, the properties of C5 leave one list only: any
    stable descending sort of the buckets is the list [category_totals]
    returns. *)
Lemma category_totals_unique (year : Z) (kind_ : string) (month : option Z)
    (self : FinanceBook) (s : list (string * float)) :
  let buckets :=
    fill [] (filter (λ tx, kind tx = kind_)
               (value (FinanceBook.for_year_and_month year month) self)) in
  Forall (λ kv, not_nan kv.2) buckets →
  stable_sorted_of (λ kv kv', kv'.2 <? kv.2)%float buckets s →
  s = value (FinanceBook.category_totals year kind_ month) self.
Proof.
  intros buckets Hnan Hs. rewrite category_totals_unfold. fold buckets.
  apply (stable_sorted_unique (λ kv kv', kv'.2 <? kv.2)%float buckets);
    [| done |].
  - apply (NoDup_fmap_1 fst). unfold buckets.
    change (NoDup (dict_keys (fill [] (filter (λ tx, kind tx = kind_)
              (value (FinanceBook.for_year_and_month year month) self))))).
    rewrite dict_keys_fill. by apply foldl_see_spec, NoDup_nil_2.
  - apply (py_sorted_stable_sorted _ (λ a b, float_ltb_asym b.2 a.2)
             (λ kv, not_nan kv.2)); [| done].
    unfold not_gt. intros a b c Hb Hab Hbc.
    by apply (float_ltb_neg_trans _ b.2).
Qed.

Example first_seen_order :
  first_seen ["Food"; "Rent"; "Food"; "(uncategorized)"; "Rent"]
  = ["Food"; "Rent"; "(uncategorized)"].
Proof. reflexivity. Qed.

(** The scenario of the specification, and a tie: three categories with
    the total 50 stay in the order in which they were first seen. *)
Example category_totals_scenario :
  value (FinanceBook.category_totals 2024 "expense" None) scenario
  = [("Food", 50%float)].
Proof. reflexivity. Qed.

Example category_totals_tie :
  value (FinanceBook.category_totals 2024 "expense" None) tie_ledger
  = [ ("Rent", 70%float); ("Food", 50%float); ("(uncategorized)", 50%float);
      ("Fun", 50%float) ].
Proof. reflexivity. Qed.

(** * Further properties of the ledger *)

(** ** [add] and the filters *)

Lemma for_year_unfold (year : Z) (self : FinanceBook) :
  value (FinanceBook.for_year year) self
  = filter (λ tx, datetime.year (date tx) = year) (transactions self).
Proof. reflexivity. Qed.

Lemma for_year_and_month_unfold (year : Z) (month : option Z) (self : FinanceBook) :
  value (FinanceBook.for_year_and_month year month) self
  = match month with
    | None => value (FinanceBook.for_year year) self
    | Some m => filter (λ tx, datetime.month (date tx) = m)
                  (value (FinanceBook.for_year year) self)
    end.
Proof.
  destruct month as [m|]; [| done]. rewrite for_year_unfold, list_filter_filter.
  unfold value. simpl. apply list_filter_iff. intros tx. tauto.
Qed.

Lemma for_year_add (tx : Transaction) (year : Z) (self : FinanceBook) :
  value (FinanceBook.for_year year) (after (FinanceBook.add tx) self)
  = value (FinanceBook.for_year year) self
    ++ (if decide (datetime.year (date tx) = year) then [tx] else []).
Proof.
  rewrite !for_year_unfold.
  change (transactions (after (FinanceBook.add tx) self))
    with (transactions self ++ [tx]).
  rewrite filter_app, filter_cons, filter_nil. by case_decide.
Qed.

(** X1: [add] puts the transaction at the end of the ledger: the list of its
    year grows by it at the end, the list of every other year stays, and so
    does the order of all transactions that were there. *)
Theorem add_for_year (tx : Transaction) (self : FinanceBook) :
  transactions (after (FinanceBook.add tx) self) = transactions self ++ [tx]
  ∧ value (FinanceBook.for_year (datetime.year (date tx)))
      (after (FinanceBook.add tx) self)
    = value (FinanceBook.for_year (datetime.year (date tx))) self ++ [tx]
  ∧ ∀ year, year ≠ datetime.year (date tx) →
      value (FinanceBook.for_year year) (after (FinanceBook.add tx) self)
      = value (FinanceBook.for_year year) self.
Proof.
  split; [done |]. split.
  - by rewrite for_year_add, decide_True.
  - intros year Hne. by rewrite for_year_add, decide_False, app_nil_r.
Qed.

Lemma sum_list_indicator (k : Z) (ks : list Z) :
  NoDup ks → k ∈ ks →
  sum_list ((λ m, if decide (k = m) then 1%nat else 0%nat) <$> ks) = 1%nat.
Proof.
  assert (∀ ks, k ∉ ks →
            sum_list ((λ m, if decide (k = m) then 1%nat else 0%nat) <$> ks)
            = 0%nat) as Hzero.
  { intros l. induction l as [|y l IH]; [done |].
    intros [? ?]%not_elem_of_cons. rewrite fmap_cons.
    change (sum_list (?a :: ?r)) with (a + sum_list r)%nat.
    rewrite decide_False by done. by rewrite IH. }
  induction 1 as [|x ks Hx Hnd IH]; [by intros ?%elem_of_nil |].
  rewrite fmap_cons. change (sum_list (?a :: ?r)) with (a + sum_list r)%nat.
  intros [-> | Hk]%elem_of_cons.
  - rewrite decide_True by done. by rewrite Hzero.
  - rewrite decide_False by (by intros ->). by rewrite IH.
Qed.

Lemma length_by_month (l : list Transaction) :
  length l
  = sum_list ((λ m, length (filter (λ tx, datetime.month (date tx) = m) l))
              <$> months).
Proof.
  induction l as [|tx l IH].
  - by unfold months.
  - transitivity
      (sum_list ((λ m, (if decide (datetime.month (date tx) = m)
                        then 1 else 0)
                       + length (filter (λ tx, datetime.month (date tx) = m) l))%nat
                 <$> months)).
    + assert (∀ (f g : Z → nat) ks,
                sum_list ((λ m, f m + g m)%nat <$> ks)
                = (sum_list (f <$> ks) + sum_list (g <$> ks))%nat) as Hsum.
      { intros f g ks. induction ks as [|k ks IHk]; [done |].
        rewrite !fmap_cons.
        change (sum_list (?a :: ?r)) with (a + sum_list r)%nat.
        rewrite IHk.
        change (sum_list (?a :: ?r)) with (a + sum_list r)%nat. lia. }
      rewrite Hsum, <-IH, sum_list_indicator;
        [done | apply NoDup_months | apply month_in_months].
    + f_equal. apply list_fmap_ext. intros _ m _. rewrite filter_cons.
      by case_decide.
Qed.

(** X2: The months split a year: without a month [for_year_and_month] is
    [for_year]; with a month it is that month's part of [for_year], in the
    same order; the twelve parts together have as many transactions as the
    year, and a month outside 1..12 has none. *)
Theorem for_year_and_month_split (year : Z) (self : FinanceBook) :
  let txs := value (FinanceBook.for_year year) self in
  value (FinanceBook.for_year_and_month year None) self = txs
  ∧ txs `sublist_of` transactions self
  ∧ (∀ m, value (FinanceBook.for_year_and_month year (Some m)) self
          = filter (λ tx, datetime.month (date tx) = m) txs)
  ∧ length txs
    = sum_list ((λ m, length (value (FinanceBook.for_year_and_month year
                                       (Some m)) self)) <$> months)
  ∧ (∀ m, m ∉ months →
          value (FinanceBook.for_year_and_month year (Some m)) self = []).
Proof.
  intros txs. split; [done |]. split; [apply sublist_filter |].
  split; [intros m; apply (for_year_and_month_unfold year (Some m)) |]. split.
  - rewrite (length_by_month txs). f_equal. apply list_fmap_ext.
    intros _ m _. by rewrite (for_year_and_month_unfold year (Some m)).
  - intros m Hm. rewrite (for_year_and_month_unfold year (Some m)).
    generalize (value (FinanceBook.for_year year) self). intros l.
    induction l as [|tx l IH]; [done |]. rewrite filter_cons, IH.
    rewrite decide_False; [done |]. intros <-. apply Hm, month_in_months.
Qed.

(** ** The years of the ledger *)

Lemma all_years_unfold (today : datetime.date) (self : FinanceBook) :
  let years := py_sorted Z.ltb (elements (list_to_set
                 ((λ tx, datetime.year (date tx)) <$> transactions self)
                 : gset Z)) in
  value (FinanceBook.all_years today) self
  = match years with [] => [datetime.year today] | _ => years end.
Proof. reflexivity. Qed.

Lemma all_years_cases (today : datetime.date) (self : FinanceBook) :
  let years := value (FinanceBook.all_years today) self in
  (transactions self = [] ∧ years = [datetime.year today])
  ∨ (transactions self ≠ []
     ∧ StronglySorted Z.lt years
     ∧ ∀ y, y ∈ years ↔ value (FinanceBook.for_year y) self ≠ []).
Proof.
  intros years. unfold years. rewrite all_years_unfold.
  set (S := list_to_set _ : gset Z).
  assert (∀ y, y ∈ py_sorted Z.ltb (elements S) ↔
            value (FinanceBook.for_year y) self ≠ []) as Hin.
  { intros y. rewrite elem_of_py_sorted, elem_of_elements. unfold S.
    rewrite elem_of_list_to_set, list_elem_of_fmap, for_year_unfold.
    split.
    - intros (tx & -> & Htx) Hnil.
      assert (tx ∈ filter (λ tx0, datetime.year (date tx0)
                = datetime.year (date tx)) (transactions self)) as Hf
        by (by apply list_elem_of_filter).
      rewrite Hnil in Hf. by apply elem_of_nil in Hf.
    - intros Hne. destruct (filter _ _) as [|tx l] eqn:Hf; [done |].
      assert (tx ∈ filter (λ tx0, datetime.year (date tx0) = y)
                (transactions self)) as [? ?]%list_elem_of_filter
        by (rewrite Hf; left).
      by exists tx. }
  destruct (transactions self) as [|tx txs] eqn:Htxs.
  - left. split; [done |]. unfold S. simpl. by rewrite elements_empty.
  - right. split; [done |].
    destruct (py_sorted Z.ltb (elements S)) as [|y0 ys] eqn:Hys.
    + exfalso. eapply (not_elem_of_nil (datetime.year (date tx))).
      apply Hin. rewrite for_year_unfold, Htxs, filter_cons.
      by rewrite decide_True.
    + split; [| done]. rewrite <-Hys.
      apply StronglySorted_lt_py_sorted, NoDup_elements.
Qed.

Lemma StronglySorted_lt_last (l : list Z) (y : Z) :
  StronglySorted Z.lt l → last l = Some y → ∀ y', y' ∈ l → y' ≤ y.
Proof.
  induction 1 as [|x l Hl IH Hx]; [done |].
  destruct l as [|x' l].
  - intros [= <-] y' ->%list_elem_of_singleton. lia.
  - intros Hlast y' [-> | Hy']%elem_of_cons.
    + change (last (x :: x' :: l)) with (last (x' :: l)) in Hlast.
      assert (y ∈ x' :: l) as Hy.
      { apply last_Some in Hlast as [l' ->]. set_solver. }
      rewrite Forall_forall in Hx. specialize (Hx y Hy). lia.
    + by apply IH.
Qed.

(** X3: [all_years] is never empty, so [all_years()[-1]], with which the
    application picks its first year, exists; it is the greatest year
    offered. *)
Theorem all_years_last (today : datetime.date) (self : FinanceBook) :
  ∃ y, last (value (FinanceBook.all_years today) self) = Some y
       ∧ ∀ y', y' ∈ value (FinanceBook.all_years today) self → y' ≤ y.
Proof.
  destruct (all_years_cases today self) as [[_ ->] | (Hne & Hs & Hin)].
  - exists (datetime.year today). split; [done |].
    intros y' ->%list_elem_of_singleton. lia.
  - destruct (last (value (FinanceBook.all_years today) self)) as [y|] eqn:Hl.
    + exists y. split; [done |]. by apply StronglySorted_lt_last.
    + apply last_None in Hl. exfalso.
      destruct (transactions self) as [|tx txs] eqn:Htxs; [done |].
      apply (not_elem_of_nil (datetime.year (date tx))). rewrite <-Hl.
      apply Hin. rewrite for_year_unfold, Htxs, filter_cons.
      by rewrite decide_True.
Qed.

(** X4: On a ledger that is not empty the years offered are exactly the years
    that have a transaction: [for_year] of an offered year is never empty,
    and a year with a transaction is always offered. *)
Theorem all_years_for_year (today : datetime.date) (self : FinanceBook) (y : Z) :
  transactions self ≠ [] →
  (y ∈ value (FinanceBook.all_years today) self
   ↔ value (FinanceBook.for_year y) self ≠ []).
Proof.
  intros Hne. by destruct (all_years_cases today self) as [[? _] | (_ & _ & ?)].
Qed.

Lemma all_years_for_year_witness :
  2024 ∈ value (FinanceBook.all_years jan15) scenario
  ↔ value (FinanceBook.for_year 2024) scenario ≠ [].
Proof. apply (all_years_for_year jan15 scenario 2024). discriminate. Defined.

(** X5: After [add] the year of the new transaction is offered, next to the
    years that had transactions before. *)
Theorem all_years_add (today : datetime.date) (tx : Transaction)
    (self : FinanceBook) (y : Z) :
  y ∈ value (FinanceBook.all_years today) (after (FinanceBook.add tx) self)
  ↔ y = datetime.year (date tx) ∨ value (FinanceBook.for_year y) self ≠ [].
Proof.
  destruct (all_years_cases today (after (FinanceBook.add tx) self))
    as [[Hnil _] | (_ & _ & Hin)].
  - exfalso. change (transactions self ++ [tx] = []) in Hnil.
    by destruct (transactions self).
  - rewrite Hin, for_year_add.
    case_decide as Hy.
    + split; [by left |]. intros _. by destruct (value _ self).
    + rewrite app_nil_r. split; [by right | by intros [? | ?]].
Qed.

(** ** Removal *)

Lemma date_eqb_eq (a b : datetime.date) : datetime.eqb a b = true → a = b.
Proof.
  unfold datetime.eqb. intros H.
  apply andb_prop in H as [H Hd]. apply andb_prop in H as [Hy Hm].
  apply Z.eqb_eq in Hy, Hm, Hd. by apply date_eq.
Qed.

Lemma tx_eqb_date (x t : Transaction) : tx_eqb x t = true → date x = date t.
Proof.
  unfold tx_eqb. intros H. do 4 (apply andb_prop in H as [H _]).
  by apply date_eqb_eq.
Qed.

Lemma tx_eqb_refl (t : Transaction) : not_nan (amount t) → tx_eqb t t = true.
Proof.
  unfold not_nan, tx_eqb, datetime.eqb. intros ->.
  by rewrite !Z.eqb_refl, !String.eqb_refl.
Qed.

Lemma list_remove_Ok (tx : Transaction) (l l' : list Transaction) :
  list_remove tx l = Ok l' ↔
  ∃ l1 x l2, l = l1 ++ x :: l2 ∧ l' = l1 ++ l2
    ∧ Forall (λ y, tx_eqb y tx = false) l1 ∧ tx_eqb x tx = true.
Proof.
  split.
  - intros Hrem.
    destruct (first_occurrence tx l) as [Habs | (l1 & x & l2 & -> & Hl1 & Hx)].
    + by rewrite list_remove_absent in Hrem.
    + rewrite list_remove_first in Hrem by done. injection Hrem as <-.
      by exists l1, x, l2.
  - intros (l1 & x & l2 & -> & -> & Hl1 & Hx). by apply list_remove_first.
Qed.

Lemma remove_Ok (tx : Transaction) (self book' : FinanceBook) :
  remove tx self = (Ok tt, book') ↔
  list_remove tx (transactions self) = Ok (transactions book').
Proof.
  unfold remove. destruct book' as [l'].
  destruct (list_remove tx (transactions self)) as [l|e]; simpl.
  - split; [by intros [= ->] | by intros [= ->]].
  - split; intros; done.
Qed.

(** X6: A transaction that is in the ledger, with an amount that is no NaN, can
    be removed: [remove] does not raise, the ledger gets shorter by one,
    and what is left keeps its order. *)
Theorem remove_member (t : Transaction) (self : FinanceBook) :
  t ∈ transactions self → not_nan (amount t) →
  ∃ book', remove t self = (Ok tt, book')
    ∧ length (transactions self) = S (length (transactions book'))
    ∧ transactions book' `sublist_of` transactions self.
Proof.
  intros Hin Hnan.
  destruct (first_occurrence t (transactions self))
    as [Habs | (l1 & x & l2 & Hl & Hl1 & Hx)].
  - rewrite Forall_forall in Habs. specialize (Habs t Hin).
    by rewrite tx_eqb_refl in Habs.
  - exists (mkFinanceBook (l1 ++ l2)). split.
    + apply remove_Ok. simpl. rewrite Hl. by apply list_remove_first.
    + rewrite Hl. simpl. rewrite !length_app. simpl. split; [lia |].
      apply sublist_app; [done |]. by apply sublist_cons.
Qed.

Lemma remove_member_witness :
  ∃ book', remove stranger (mkFinanceBook [stranger]) = (Ok tt, book')
    ∧ length [stranger] = S (length (transactions book'))
    ∧ transactions book' `sublist_of` [stranger].
Proof.
  apply (remove_member stranger (mkFinanceBook [stranger])); [left | reflexivity].
Defined.

(** X7: A removal shows exactly once: the list of the year of the removed
    transaction loses one entry, the list of every other year is as it
    was. *)
Theorem remove_for_year (tx : Transaction) (self book' : FinanceBook) :
  remove tx self = (Ok tt, book') →
  length (value (FinanceBook.for_year (datetime.year (date tx))) self)
  = S (length (value (FinanceBook.for_year (datetime.year (date tx))) book'))
  ∧ ∀ year, year ≠ datetime.year (date tx) →
      value (FinanceBook.for_year year) book'
      = value (FinanceBook.for_year year) self.
Proof.
  intros (l1 & x & l2 & Hl & Hl' & _ & Hx)%remove_Ok%list_remove_Ok.
  apply tx_eqb_date in Hx. rewrite !for_year_unfold, Hl, Hl'. split.
  - rewrite !filter_app, filter_cons, decide_True by (by rewrite Hx).
    rewrite !length_app. simpl. lia.
  - intros year Hne. rewrite !for_year_unfold, Hl, Hl'.
    rewrite !filter_app, filter_cons, decide_False; [done |].
    by rewrite Hx.
Qed.

Lemma remove_for_year_witness :
  length (value (FinanceBook.for_year 2024) (mkFinanceBook [stranger]))
  = S (length (value (FinanceBook.for_year 2024) (mkFinanceBook [])))
  ∧ ∀ year, year ≠ 2024 →
      value (FinanceBook.for_year year) (mkFinanceBook [])
      = value (FinanceBook.for_year year) (mkFinanceBook [stranger]).
Proof.
  apply (remove_for_year stranger (mkFinanceBook [stranger]) (mkFinanceBook [])).
  reflexivity.
Defined.

(** X8: [remove] undoes [add]: when no transaction of the ledger equals [tx]
    and the amount of [tx] is no NaN, adding [tx] and removing it again gives
    the ledger back. *)
Theorem add_then_remove (tx : Transaction) (self : FinanceBook) :
  Forall (λ y, tx_eqb y tx = false) (transactions self) →
  not_nan (amount tx) →
  remove tx (after (FinanceBook.add tx) self) = (Ok tt, self).
Proof.
  intros Habs Hnan. apply remove_Ok.
  change (transactions (after (FinanceBook.add tx) self))
    with (transactions self ++ [tx]).
  rewrite list_remove_first; [by rewrite app_nil_r | done |].
  by apply tx_eqb_refl.
Qed.

Lemma add_then_remove_witness :
  remove stranger (after (FinanceBook.add stranger) scenario) = (Ok tt, scenario).
Proof.
  apply (add_then_remove stranger scenario); [| reflexivity].
  by repeat constructor.
Defined.

(** ** Serialization and storage *)

(** X9: [to_json] loses nothing: two transactions with the same record are the
    same transaction. *)
Theorem to_json_inj (a b : Transaction) : to_json a = to_json b → a = b.
Proof.
  intros H.
  pose proof (from_json_to_json wire.lib a
                (wire_fromisoformat_isoformat (date a))) as Ha.
  pose proof (from_json_to_json wire.lib b
                (wire_fromisoformat_isoformat (date b))) as Hb.
  rewrite H, Hb in Ha. by injection Ha.
Qed.

Lemma to_json_inj_witness : stranger = stranger.
Proof. apply (to_json_inj stranger stranger). reflexivity. Defined.

Lemma load_book_save_book_witness :
  load_book wire.lib (File (Ok (save_book scenario))) = scenario.
Proof.
  apply (load_book_save_book wire.lib scenario). by repeat constructor.
Defined.

(** X10: What [from_json] fills in and what it raises.  A record that is no
    dictionary raises [TypeError]; the fields are read in the order date,
    amount, party, category, kind, and the first one that fails decides the
    exception: [KeyError] for a missing date, amount or kind, [TypeError]
    for a date that is no string, [ValueError] for a date or an amount that
    does not parse; a missing party or category is the empty string. *)
Theorem from_json_cases (L : pylib) (m : gmap string pyval) :
  (∀ data, (∀ m', data ≠ PyDict m') → from_json L data = Raise TypeError)
  ∧ (m !! "date" = None → from_json L (PyDict m) = Raise KeyError)
  ∧ (∀ v, m !! "date" = Some v → (∀ s, v ≠ PyStr s) →
          from_json L (PyDict m) = Raise TypeError)
  ∧ (∀ s, m !! "date" = Some (PyStr s) → fromisoformat L s = None →
          from_json L (PyDict m) = Raise ValueError)
  ∧ (∀ s d, m !! "date" = Some (PyStr s) → fromisoformat L s = Some d →
       (m !! "amount" = None → from_json L (PyDict m) = Raise KeyError)
       ∧ (∀ v e, m !! "amount" = Some v → py_float L v = Raise e →
            from_json L (PyDict m) = Raise e)
       ∧ (∀ v a, m !! "amount" = Some v → py_float L v = Ok a →
            (m !! "kind" = None → from_json L (PyDict m) = Raise KeyError)
            ∧ (∀ k, m !! "kind" = Some k →
                 from_json L (PyDict m)
                 = Ok (mkTransaction d a
                         (from_option (py_str L) "" (m !! "party"))
                         (from_option (py_str L) "" (m !! "category"))
                         (py_str L k))))).
Proof.
  unfold from_json, getitem, get_default, py_fromisoformat.
  split.
  { intros data Hd. destruct data; try done. by destruct (Hd m0). }
  split; [by intros -> |]. split.
  { intros v -> Hv. simpl. destruct v; try done. by destruct (Hv s). }
  split; [intros s Hs Hiso; rewrite Hs; simpl; by rewrite Hiso |].
  intros s d Hs Hiso. rewrite Hs. simpl. rewrite Hiso. simpl.
  split; [by intros -> |]. split.
  { intros v e Hv He. rewrite Hv. simpl. by rewrite He. }
  intros v a Hv Ha. rewrite Hv. simpl. rewrite Ha. simpl.
  split; [by intros -> |].
  intros k ->. simpl. by destruct (m !! "party"), (m !! "category").
Qed.

Example from_json_amount_types :
  py_float wire.lib (PyInt 100) = Ok 100%float
  ∧ py_float wire.lib (PyBool true) = Ok 1%float
  ∧ py_float wire.lib (PyStr " 12.50 ") = Ok 12.5%float
  ∧ py_float wire.lib PyNone = Raise TypeError
  ∧ py_float wire.lib (PyInt (10 ^ 400)) = Raise OverflowError.
Proof. repeat split; reflexivity. Qed.

(** ** Totals *)

Lemma yearly_totals_unfold (L : pylib) (year : Z) (self : FinanceBook) :
  value (FinanceBook.yearly_totals L year) self
  = (mt ← value (FinanceBook.monthly_totals year) self;
     inc ← rmap (λ m, t ← of_option KeyError (dict_get m mt); Ok (income t))
            (dict_keys mt);
     exp ← rmap (λ m, t ← of_option KeyError (dict_get m mt); Ok (expense t))
            (dict_keys mt);
     Ok (mkTotals (py_sum L inc) (py_sum L exp) (py_sum L inc - py_sum L exp))).
Proof. reflexivity. Qed.

(** X11: The totals of a year depend on the transactions of that year only: two
    ledgers with the same [for_year] have the same monthly, yearly and
    category totals, so adding or removing a transaction of another year
    changes none of them. *)
Theorem totals_of_year_only (L : pylib) (year : Z) (self self' : FinanceBook) :
  value (FinanceBook.for_year year) self
  = value (FinanceBook.for_year year) self' →
  value (FinanceBook.monthly_totals year) self
  = value (FinanceBook.monthly_totals year) self'
  ∧ value (FinanceBook.yearly_totals L year) self
    = value (FinanceBook.yearly_totals L year) self'
  ∧ ∀ kind_ month,
      value (FinanceBook.category_totals year kind_ month) self
      = value (FinanceBook.category_totals year kind_ month) self'.
Proof.
  intros Hyear.
  assert (value (FinanceBook.monthly_totals year) self
          = value (FinanceBook.monthly_totals year) self') as Hmt
    by (by rewrite !monthly_totals_unfold, Hyear).
  split; [done |]. split.
  - by rewrite !yearly_totals_unfold, Hmt.
  - intros kind_ month.
    by rewrite !category_totals_unfold, !for_year_and_month_unfold, Hyear.
Qed.

Lemma totals_of_year_only_witness :
  value (FinanceBook.monthly_totals 2023) scenario
  = value (FinanceBook.monthly_totals 2023)
      (after (FinanceBook.add stranger) scenario).
Proof.
  apply (totals_of_year_only wire.lib 2023 scenario
           (after (FinanceBook.add stranger) scenario)).
  reflexivity.
Defined.


(** * The application

    The part of [FinanceApp] that reads and changes the ledger.  The state
    is the book, the selected year and the four entry fields; what the user
    selects or answers, the functions of the library that format or strip
    text, and what becomes of a write to [DATA_FILE], are arguments.  The
    callbacks [add_tx] and [delete_selected] are followed up to their call
    of [refresh_all()], which redraws the widgets from the state they leave
    and changes none of it; what the widgets and the chart library do
    there is not part of the model. *)

Record App : Type := mkApp {
  book : FinanceBook;
  selected_year : Z;
  date_var : string;
  amount_var : string;
  party_var : string;
  category_var : string
}.

(** [d1 < d2] on dates. *)
Definition date_ltb (a b : datetime.date) : bool :=
  (datetime.year a <? datetime.year b)
  || ((datetime.year a =? datetime.year b)
      && ((datetime.month a <? datetime.month b)
          || ((datetime.month a =? datetime.month b)
              && (datetime.day a <? datetime.day b)))).

(** The order of [key=lambda t: t.date]. *)
Definition by_date (a b : Transaction) : bool := date_ltb (date a) (date b).

(** [l[i]]: a negative [i] counts from the end; [None] is [IndexError]. *)
Definition py_index {A} (l : list A) (i : Z) : option A :=
  let n := Z.of_nat (length l) in
  if (0 <=? i) && (i <? n) then l !! Z.to_nat i
  else if (- n <=? i) && (i <? 0) then l !! Z.to_nat (n + i)
  else None.

(** How a callback can end early: with [IndexError], or with an exception of
    the ledger or of the write to [DATA_FILE]. *)
Inductive failure : Type :=
| IndexError
| Exception (e : exn).

Inductive add_outcome : Type :=
| InvalidDate
| InvalidAmount
| NegativeAmount
| Added (saved : pyval)
| AddFailed (f : failure).

Inductive delete_outcome : Type :=
| NothingSelected
| Declined
| Deleted (saved : pyval)
| DeleteFailed (f : failure).


Module FinanceApp.

(** [sorted(self.book.for_year(year), key=lambda t: t.date)], the rows of
    the table, of the export and of [delete_selected]. *)
Definition displayed (year : Z) (b : FinanceBook) : list Transaction :=
  py_sorted by_date (value (FinanceBook.for_year year) b).

(** [_refresh_year_options]: the years offered and the application
    afterwards; [None] is the [IndexError] of [years[-1]]. *)
Definition refresh_year_options (today : datetime.date) (app : App)
    : option (list Z * App) :=
  let years := value (FinanceBook.all_years today) (book app) in
  let years := match years with [] => [datetime.year today] | _ => years end in
  if decide (selected_year app ∈ years) then Some (years, app)
  else
    y ← last years;
    Some (years, mkApp (book app) y (date_var app) (amount_var app)
                   (party_var app) (category_var app)).

(** [add_tx(kind)]; [strip] is [str.strip], and [write] is what the rest
    of [save_book], [json.dumps] and [DATA_FILE.write_text], does with the
    document: it returns, or it raises (an [OSError], say), which nothing
    in the callback catches.  [Added] is the call of [refresh_all()]. *)
Definition add_tx (L : pylib) (strip : string → string)
    (write : pyval → result unit) (today : datetime.date) (kind_ : string)
    (app : App) : add_outcome * App :=
  match fromisoformat L (date_var app) with
  | None => (InvalidDate, app)
  | Some dt =>
      match float_of_str L (amount_var app) with
      | None => (InvalidAmount, app)
      | Some a =>
          if (a <? 0)%float then (NegativeAmount, app)
          else
            let tx := mkTransaction dt a (strip (party_var app))
                        (strip (category_var app)) kind_ in
            let book' := after (FinanceBook.add tx) (book app) in
            let saved := save_book book' in
            match write saved with
            | Raise e =>
                (AddFailed (Exception e),
                 mkApp book' (selected_year app) (date_var app)
                   (amount_var app) (party_var app) (category_var app))
            | Ok _ =>
                let app' := mkApp book' (selected_year app) (date_var app) ""
                              (party_var app) (category_var app) in
                match refresh_year_options today app' with
                | Some (_, app'') => (Added saved, app'')
                | None => (AddFailed IndexError, app')
                end
            end
      end
  end.

(** The loop of [delete_selected].  The target is removed by value, which
    is what [list.remove] does with every target whose amount is no NaN
    ([remove_object_remove] below). *)
Fixpoint remove_rows (rows : list Transaction) (indices : list Z)
    (b : FinanceBook) : option failure * FinanceBook :=
  match indices with
  | [] => (None, b)
  | idx :: rest =>
      match py_index rows idx with
      | None => (Some IndexError, b)
      | Some target =>
          match remove target b with
          | (Ok _, b') => remove_rows rows rest b'
          | (Raise e, b') => (Some (Exception e), b')
          end
      end
  end.

(** [delete_selected]: [selected] holds the values of the column "index"
    of the selected rows, [askyesno] the answer to the question, and
    [write] is as in [add_tx].  [Deleted] is the call of [refresh_all()]. *)
Definition delete_selected (selected : list Z) (askyesno : bool)
    (write : pyval → result unit) (app : App) : delete_outcome * App :=
  match selected with
  | [] => (NothingSelected, app)
  | _ =>
      if negb askyesno then (Declined, app)
      else
        let rows := displayed (selected_year app) (book app) in
        let indices_to_remove := py_sorted_reverse Z.ltb selected in
        let '(r, book') := remove_rows rows indices_to_remove (book app) in
        let app' := mkApp book' (selected_year app) (date_var app)
                      (amount_var app) (party_var app) (category_var app) in
        match r with
        | Some f => (DeleteFailed f, app')
        | None =>
            match write (save_book book') with
            | Raise e => (DeleteFailed (Exception e), app')
            | Ok _ => (Deleted (save_book book'), app')
            end
        end
  end.


End FinanceApp.

(** [refresh_transactions]: the rows put into the table, each with the
    value of its column "index"; [fmt] is [f"{x:.2f}"]. *)
Definition refresh_transactions (fmt : float → string) (app : App)
    : list (list string * Z) :=
  imap (λ idx tx,
          ([datetime.isoformat (date tx); kind tx; fmt (amount tx);
            party tx; category tx], Z.of_nat idx))
    (FinanceApp.displayed (selected_year app) (book app)).

(** ** The rows of the table and of the export *)

(** A date as one number; it orders dates as [<] does. *)
Definition date_ord (d : datetime.date) : Z :=
  datetime.year d * 10000 + datetime.month d * 100 + datetime.day d.

Lemma date_ltb_ord (a b : datetime.date) :
  date_ltb a b = (date_ord a <? date_ord b).
Proof.
  pose proof (date_bounds a). pose proof (date_bounds b).
  unfold date_ltb, date_ord.
  destruct (Z.ltb_spec (datetime.year a) (datetime.year b)),
    (Z.eqb_spec (datetime.year a) (datetime.year b)),
    (Z.ltb_spec (datetime.month a) (datetime.month b)),
    (Z.eqb_spec (datetime.month a) (datetime.month b)),
    (Z.ltb_spec (datetime.day a) (datetime.day b)); simpl;
    symmetry; first [apply Z.ltb_lt | apply Z.ltb_ge]; lia.
Qed.

Lemma by_date_asym (a b : Transaction) :
  by_date a b = true → by_date b a = false.
Proof.
  unfold by_date. rewrite !date_ltb_ord.
  intros ?%Z.ltb_lt. apply Z.ltb_ge. lia.
Qed.

Lemma by_date_trans (a b c : Transaction) :
  not_gt by_date a b → not_gt by_date b c → not_gt by_date a c.
Proof.
  unfold not_gt, by_date. rewrite !date_ltb_ord.
  intros ?%Z.ltb_ge ?%Z.ltb_ge. apply Z.ltb_ge. lia.
Qed.

Lemma date_ltb_antisym (a b : datetime.date) :
  date_ltb a b = false → date_ltb b a = false → a = b.
Proof.
  rewrite !date_ltb_ord. intros Hab%Z.ltb_ge Hba%Z.ltb_ge.
  pose proof (date_bounds a). pose proof (date_bounds b).
  unfold date_ord in *. apply date_eq; lia.
Qed.

#[local] Instance date_eq_dec : EqDecision datetime.date.
Proof.
  intros a b.
  destruct (decide (datetime.year a = datetime.year b
                    ∧ datetime.month a = datetime.month b
                    ∧ datetime.day a = datetime.day b)) as [(? & ? & ?) | Hne].
  - left. by apply date_eq.
  - right. intros ->. by apply Hne.
Defined.

(** Sorting keeps the order of the items that the order does not tell
    apart. *)
Lemma filter_insort {A} (lt : A → A → bool) (P : A → Prop)
    `{!∀ x, Decision (P x)} (x : A) (l : list A) :
  (∀ y, P x → P y → lt y x = false) →
  filter P (insort lt x l) = filter P (x :: l).
Proof.
  intros Hties. induction l as [|y l IH]; [done |].
  cbn [insort]. destruct (lt y x) eqn:Hyx; [| done].
  rewrite filter_cons, IH, !filter_cons.
  destruct (decide (P y)) as [Hy|]; [| done].
  destruct (decide (P x)) as [Hx|]; [| done].
  by rewrite (Hties y Hx Hy) in Hyx.
Qed.

Lemma filter_py_sorted {A} (lt : A → A → bool) (P : A → Prop)
    `{!∀ x, Decision (P x)} (l : list A) :
  (∀ x y, P x → P y → lt y x = false) →
  filter P (py_sorted lt l) = filter P l.
Proof.
  intros Hties. induction l as [|x l IH]; [done |].
  cbn [py_sorted foldr]. fold (py_sorted lt l).
  rewrite filter_insort by (intros y; apply Hties).
  by rewrite !filter_cons, IH.
Qed.

(** Two lists in ascending order of date that agree day by day are one
    list. *)
Lemma by_date_unique (s1 s2 : list Transaction) :
  StronglySorted (not_gt by_date) s1 →
  StronglySorted (not_gt by_date) s2 →
  (∀ d, filter (λ t, date t = d) s1 = filter (λ t, date t = d) s2) →
  s1 = s2.
Proof.
  intros Hs1. revert s2.
  induction Hs1 as [|x s1 Hs1 IH Hx]; intros s2 Hs2 Hday.
  { destruct s2 as [|y s2]; [done |]. specialize (Hday (date y)).
    by rewrite filter_cons, decide_True in Hday. }
  destruct Hs2 as [|y s2 Hs2 Hy].
  { specialize (Hday (date x)). by rewrite filter_cons, decide_True in Hday. }
  assert (date x = date y) as Hxy.
  { assert (x ∈ y :: s2) as Hx2.
    { assert (x ∈ filter (λ t, date t = date x) (y :: s2)) as Hin
        by (rewrite <-Hday, filter_cons, decide_True by done; left).
      by apply list_elem_of_filter in Hin as [_ ?]. }
    assert (y ∈ x :: s1) as Hy1.
    { assert (y ∈ filter (λ t, date t = date y) (x :: s1)) as Hin
        by (rewrite Hday, filter_cons, decide_True by done; left).
      by apply list_elem_of_filter in Hin as [_ ?]. }
    apply elem_of_cons in Hx2 as [-> | Hx2]; [done |].
    apply elem_of_cons in Hy1 as [-> | Hy1]; [done |].
    rewrite Forall_forall in Hx, Hy.
    apply date_ltb_antisym; [exact (Hy x Hx2) | exact (Hx y Hy1)]. }
  pose proof (Hday (date x)) as Hhead.
  rewrite !filter_cons, !decide_True in Hhead by done.
  injection Hhead as <- Htail. f_equal. apply IH; [done |].
  intros d. specialize (Hday d). rewrite !filter_cons in Hday.
  destruct (decide (date x = d)); [by injection Hday | done].
Qed.

(** X13: The rows shown, exported and deleted from are the transactions of
    the year sorted by date and stably: they are the same transactions, no
    row is later in date than a following one, and the rows of each day
    are the transactions of that day in the order of the ledger, also when
    some of them are equal.  No other list has these properties. *)
Theorem displayed_by_date (year : Z) (b : FinanceBook) :
  let txs := value (FinanceBook.for_year year) b in
  let rows := FinanceApp.displayed year b in
  rows ≡ₚ txs
  ∧ StronglySorted (λ r r', date_ltb (date r') (date r) = false) rows
  ∧ (∀ d, filter (λ t, date t = d) rows = filter (λ t, date t = d) txs)
  ∧ ∀ s, StronglySorted (λ r r', date_ltb (date r') (date r) = false) s →
         (∀ d, filter (λ t, date t = d) s = filter (λ t, date t = d) txs) →
         s = rows.
Proof.
  intros txs rows.
  assert (StronglySorted (not_gt by_date) rows) as Hsorted.
  { apply Sorted_StronglySorted; [intros x y z; apply by_date_trans |].
    apply Sorted_py_sorted, by_date_asym. }
  assert (∀ d, filter (λ t, date t = d) rows = filter (λ t, date t = d) txs)
    as Hday.
  { intros d. apply filter_py_sorted. intros x y Hx Hy.
    unfold by_date. rewrite Hx, Hy, date_ltb_ord. apply Z.ltb_irrefl. }
  split; [apply py_sorted_Permutation |]. split; [done |]. split; [done |].
  intros s Hs Hs_day. apply by_date_unique; [done | done |].
  intros d. by rewrite Hs_day, Hday.
Qed.

Example displayed_scenario :
  FinanceApp.displayed 2024
    (mkFinanceBook
       [ mkTransaction feb01 10 "" "Food" "expense";
         mkTransaction jan20 40 "" "Food" "expense";
         mkTransaction jan15 100 "" "" "income";
         mkTransaction jan20 5 "" "Bus" "expense" ])
  = [ mkTransaction jan15 100 "" "" "income";
      mkTransaction jan20 40 "" "Food" "expense";
      mkTransaction jan20 5 "" "Bus" "expense";
      mkTransaction feb01 10 "" "Food" "expense" ].
Proof. reflexivity. Qed.



(** ** [delete_selected] *)

Lemma SFeqb_congr (x y z : spec_float) :
  SFeqb x y = true → SFeqb x z = SFeqb y z.
Proof.
  unfold SFeqb.
  destruct x as [sx|sx| |sx mx ex], y as [sy|sy| |sy my ey],
    z as [sz|sz| |sz mz ez]; try done; simpl;
    try (destruct sx); try (destruct sy); try (destruct sz); try done;
    intros H; compare_cases; simpl in *; try done.
Qed.

Lemma tx_eqb_congr (x t c : Transaction) :
  tx_eqb x t = true → tx_eqb x c = tx_eqb t c.
Proof.
  unfold tx_eqb. intros H.
  apply andb_prop in H as [H Hk]. apply andb_prop in H as [H Hc].
  apply andb_prop in H as [H Hp]. apply andb_prop in H as [Hd Ha].
  apply date_eqb_eq in Hd. apply String.eqb_eq in Hk, Hc, Hp.
  rewrite Hd, Hk, Hc, Hp. do 4 f_equal.
  rewrite FloatAxioms.eqb_spec in Ha. rewrite !FloatAxioms.eqb_spec.
  by apply SFeqb_congr.
Qed.

(** ** Removal with the identity of the target (C1) *)

Lemma tx_eqb_not_nan (y x : Transaction) :
  tx_eqb y x = true → not_nan (amount y) ∧ not_nan (amount x).
Proof.
  intros H. pose proof H as H'. unfold tx_eqb in H'.
  do 3 (apply andb_prop in H' as [H' _]). apply andb_prop in H' as [_ Ha].
  unfold not_nan. rewrite FloatAxioms.eqb_spec in Ha.
  rewrite !FloatAxioms.eqb_spec. split.
  - destruct (Prim2SF (amount y)) as [[]|[]| |[] m e],
      (Prim2SF (amount x)) as [[]|[]| |[] m' e']; try done;
      unfold SFeqb in *; simpl in *; compare_cases; simpl in *; try done;
      by rewrite ?Z.compare_refl, ?Pos.compare_refl.
  - by rewrite <-(SFeqb_congr _ _ _ Ha).
Qed.

Lemma list_remove_object_None (x : Transaction) (l : list Transaction) :
  list_remove_object tx_eqb x None l = list_remove x l.
Proof. induction l as [|y l IH]; simpl; [done |]. by rewrite IH. Qed.

Lemma list_remove_object_first (eq : Transaction → Transaction → bool)
    (x : Transaction) (l1 : list Transaction) (y : Transaction)
    (l2 : list Transaction) (pos : option nat) :
  Forall (λ z, eq z x = false) l1 →
  (∀ k, pos = Some k → (length l1 ≤ k)%nat) →
  eq y x = true ∨ pos = Some (length l1) →
  list_remove_object eq x pos (l1 ++ y :: l2) = Ok (l1 ++ l2).
Proof.
  intros Hl1. revert pos.
  induction Hl1 as [|z l1 Hz _ IH]; intros pos Hpos Hy.
  - cbn [app list_remove_object].
    destruct Hy as [-> | ->]; [by rewrite orb_true_r |].
    by rewrite bool_decide_eq_true_2.
  - cbn [app list_remove_object]. rewrite Hz, orb_false_r.
    rewrite bool_decide_eq_false_2
      by (intros ->; specialize (Hpos 0%nat eq_refl); simpl in Hpos; lia).
    rewrite (IH (Nat.pred <$> pos)); [done | |].
    + intros k Hk. destruct pos as [k0|]; [| done]. injection Hk as <-.
      specialize (Hpos k0 eq_refl). simpl in Hpos. lia.
    + destruct Hy as [? | ->]; [by left | by right].
Qed.

Lemma list_remove_object_absent (eq : Transaction → Transaction → bool)
    (x : Transaction) (l : list Transaction) :
  Forall (λ z, eq z x = false) l →
  list_remove_object eq x None l = Raise ValueError.
Proof.
  induction 1 as [|z l Hz _ IH]; [done |].
  cbn [list_remove_object]. rewrite Hz, bool_decide_eq_false_2 by done.
  cbn [orb fmap option_fmap option_map]. by rewrite IH.
Qed.

(** The first item that is the target or equal to it: the target stands at
    [k], so there is one at [k] or before. *)
Lemma first_same_or_equal (x : Transaction) (k : nat) (l : list Transaction) :
  l !! k = Some x →
  ∃ l1 y l2, l = l1 ++ y :: l2
    ∧ Forall (λ z, tx_eqb z x = false) l1
    ∧ (length l1 ≤ k)%nat
    ∧ (tx_eqb y x = true ∨ (length l1 = k ∧ y = x)).
Proof.
  intros Hk. pose proof (lookup_lt_Some _ _ _ Hk) as Hlt.
  destruct (first_occurrence x (take k l))
    as [Hnone | (l1 & y & l2 & Htake & Hl1 & Hy)].
  - exists (take k l), x, (drop (S k) l).
    split; [by rewrite <-drop_S, take_drop |]. split; [done |].
    rewrite length_take. split; [lia |]. right. split; [lia | done].
  - exists l1, y, (l2 ++ drop k l).
    assert (length l1 < k)%nat as Hlen.
    { apply (f_equal length) in Htake.
      rewrite length_take, length_app in Htake. simpl in Htake. lia. }
    split; [| split; [done | split; [lia | by left]]].
    by rewrite <-(take_drop k l) at 1; rewrite Htake, <-app_assoc.
Qed.

(** C1, as the code has it.  [x] is the target, an item of the ledger when
    [pos] says where it stands, and [eq] the [==] of two different
    transactions, which is the comparison of the five fields unless both
    amounts are NaN.  The theorem is about a target whose amount is no NaN,
    and about a target that is the only transaction of the ledger with a
    NaN amount.  Then [remove] takes out the first transaction that is the
    target itself or has the same five fields, and leaves every other one,
    later duplicates included, in place.  A target from the ledger is
    always found, so nothing is raised: when no transaction has its five
    fields, which needs a NaN amount, the target itself goes.  For a target
    that is no item of the ledger and that no transaction equals, the
    ledger is left as it was and [ValueError] is raised. *)
Theorem remove_first_same_or_equal (eq : Transaction → Transaction → bool)
    (x : Transaction) (pos : option nat) (self : FinanceBook) :
  (∀ a b, not_nan (amount a) ∨ not_nan (amount b) → eq a b = tx_eqb a b) →
  (∀ k, pos = Some k → transactions self !! k = Some x) →
  (not_nan (amount x)
   ∨ ∀ k y, transactions self !! k = Some y → pos ≠ Some k →
       not_nan (amount y)) →
  (∀ l1 y l2,
     transactions self = l1 ++ y :: l2 →
     Forall (λ z, tx_eqb z x = false) l1 →
     (∀ k, pos = Some k → (length l1 ≤ k)%nat) →
     tx_eqb y x = true ∨ pos = Some (length l1) →
     remove_object eq x pos self = (Ok tt, mkFinanceBook (l1 ++ l2)))
  ∧ (∀ k, pos = Some k →
       ∃ l1 y l2, transactions self = l1 ++ y :: l2
         ∧ Forall (λ z, tx_eqb z x = false) l1
         ∧ (tx_eqb y x = true ∨ (length l1 = k ∧ y = x))
         ∧ remove_object eq x pos self = (Ok tt, mkFinanceBook (l1 ++ l2)))
  ∧ (∀ k, pos = Some k →
       Forall (λ z, tx_eqb z x = false) (transactions self) →
       remove_object eq x pos self
       = (Ok tt, mkFinanceBook (delete k (transactions self))))
  ∧ (pos = None →
     Forall (λ z, tx_eqb z x = false) (transactions self) →
     remove_object eq x pos self = (Raise ValueError, self)).
Proof.
  intros Heq Hpos Hscope.
  assert (∀ k z, transactions self !! k = Some z → pos ≠ Some k →
            eq z x = tx_eqb z x) as Hother.
  { intros k z Hz Hk. apply Heq.
    destruct Hscope as [Hx | Hrest]; [by right | left; by eapply Hrest]. }
  assert (∀ l1 y l2,
     transactions self = l1 ++ y :: l2 →
     Forall (λ z, tx_eqb z x = false) l1 →
     (∀ k, pos = Some k → (length l1 ≤ k)%nat) →
     tx_eqb y x = true ∨ pos = Some (length l1) →
     remove_object eq x pos self = (Ok tt, mkFinanceBook (l1 ++ l2))) as Hfirst.
  { intros l1 y l2 Hl Hl1 Hlen Hy. unfold remove_object.
    rewrite Hl, (list_remove_object_first eq x l1 y l2 pos); [done | | done |].
    - apply Forall_lookup. intros j z Hz.
      rewrite (Hother j z).
      + by eapply (Forall_lookup_1 _ _ _ _ Hl1).
      + rewrite Hl. by apply lookup_app_l_Some.
      + intros Hj. apply Hlen in Hj. apply lookup_lt_Some in Hz. lia.
    - destruct Hy as [Hy | Hy]; [left | by right].
      rewrite (Heq y x); [done |]. left. by apply (tx_eqb_not_nan y x). }
  split; [done |]. split; [| split].
  - intros k ->. specialize (Hpos k eq_refl).
    destruct (first_same_or_equal x k (transactions self) Hpos)
      as (l1 & y & l2 & Hl & Hl1 & Hlen & Hy).
    exists l1, y, l2. do 3 (split; [done |]).
    apply (Hfirst l1 y l2); [done | done | by intros ? [= <-] |].
    destruct Hy as [? | [-> _]]; [by left | by right].
  - intros k -> Hnone. specialize (Hpos k eq_refl).
    pose proof (lookup_lt_Some _ _ _ Hpos) as Hlt.
    rewrite delete_take_drop.
    apply (Hfirst (take k (transactions self)) x
             (drop (S k) (transactions self))).
    + by rewrite <-drop_S, take_drop.
    + by apply Forall_take.
    + intros ? [= <-]. rewrite length_take. lia.
    + right. rewrite length_take. f_equal. lia.
  - intros -> Hnone. unfold remove_object.
    rewrite list_remove_object_absent; [done |].
    apply Forall_lookup. intros j z Hz.
    rewrite (Hother j z Hz) by done.
    by eapply (Forall_lookup_1 _ _ _ _ Hnone).
Qed.

Lemma remove_first_same_or_equal_witness :
  (∀ l1 y l2,
     transactions nan_ledger = l1 ++ y :: l2 →
     Forall (λ z, tx_eqb z nan_row = false) l1 →
     (∀ k, Some 1%nat = Some k → (length l1 ≤ k)%nat) →
     tx_eqb y nan_row = true ∨ Some 1%nat = Some (length l1) →
     remove_object tx_eqb nan_row (Some 1%nat) nan_ledger
     = (Ok tt, mkFinanceBook (l1 ++ l2)))
  ∧ (∀ k, Some 1%nat = Some k →
       ∃ l1 y l2, transactions nan_ledger = l1 ++ y :: l2
         ∧ Forall (λ z, tx_eqb z nan_row = false) l1
         ∧ (tx_eqb y nan_row = true ∨ (length l1 = k ∧ y = nan_row))
         ∧ remove_object tx_eqb nan_row (Some 1%nat) nan_ledger
           = (Ok tt, mkFinanceBook (l1 ++ l2)))
  ∧ (∀ k, Some 1%nat = Some k →
       Forall (λ z, tx_eqb z nan_row = false) (transactions nan_ledger) →
       remove_object tx_eqb nan_row (Some 1%nat) nan_ledger
       = (Ok tt, mkFinanceBook (delete k (transactions nan_ledger))))
  ∧ (Some 1%nat = None →
     Forall (λ z, tx_eqb z nan_row = false) (transactions nan_ledger) →
     remove_object tx_eqb nan_row (Some 1%nat) nan_ledger
     = (Raise ValueError, nan_ledger)).
Proof.
  apply (remove_first_same_or_equal tx_eqb nan_row (Some 1%nat) nan_ledger).
  - reflexivity.
  - by intros k [= <-].
  - right. intros [|[|k]] y Hy Hk; simplify_eq/=. reflexivity.
Defined.

(** C1, counterexample: in [nan_ledger] no transaction has the five fields
    of [nan_row], which stands at position 1, and removing [nan_row] is no
    no-op: the ledger loses it.  The ledger is one that [load_book]
    returns. *)
Lemma remove_nan_row_not_noop :
  Forall (λ y, tx_eqb y nan_row = false) (transactions nan_ledger)
  ∧ transactions nan_ledger !! 1%nat = Some nan_row
  ∧ remove_object tx_eqb nan_row (Some 1%nat) nan_ledger
    = (Ok tt, mkFinanceBook [mkTransaction jan15 100 "" "" "income"])
  ∧ load_book wire.lib (File (Ok (save_book nan_ledger))) = nan_ledger.
Proof. repeat split; by repeat constructor. Qed.

(** Without a NaN the identity of the target adds nothing: a target from
    the ledger whose amount is no NaN is removed as [remove] removes it by
    value, and so is every target that is no item of the ledger. *)
Lemma remove_object_remove (x : Transaction) (pos : option nat)
    (self : FinanceBook) :
  (∀ k, pos = Some k → transactions self !! k = Some x ∧ not_nan (amount x)) →
  remove_object tx_eqb x pos self = remove x self.
Proof.
  intros Hpos. unfold remove_object, remove.
  destruct pos as [k|]; [| by rewrite list_remove_object_None].
  destruct (Hpos k eq_refl) as [Hk Hx].
  destruct (first_same_or_equal x k (transactions self) Hk)
    as (l1 & y & l2 & Hl & Hl1 & Hlen & Hy).
  assert (tx_eqb y x = true) as Hyx.
  { destruct Hy as [? | [_ ->]]; [done | by apply tx_eqb_refl]. }
  rewrite Hl, (list_remove_object_first tx_eqb x l1 y l2 (Some k)),
    list_remove_first; try done; [by intros ? [= <-] | by left].
Qed.

(** How many transactions of [l] equal [c]. *)
Definition count (c : Transaction) (l : list Transaction) : nat :=
  length (filter (λ x, tx_eqb x c = true) l).

Lemma count_app (c : Transaction) (l k : list Transaction) :
  count c (l ++ k) = (count c l + count c k)%nat.
Proof. unfold count. by rewrite filter_app, length_app. Qed.

Lemma count_cons (c x : Transaction) (l : list Transaction) :
  count c (x :: l) = ((if tx_eqb x c then 1 else 0) + count c l)%nat.
Proof.
  unfold count. rewrite filter_cons.
  destruct (tx_eqb x c); [by rewrite decide_True | by rewrite decide_False].
Qed.

Lemma count_submseteq (c : Transaction) (l k : list Transaction) :
  l ⊆+ k → (count c l ≤ count c k)%nat.
Proof.
  intros [k' Hk]%submseteq_Permutation. unfold count.
  rewrite Hk, filter_app, length_app. lia.
Qed.

Lemma count_pos (c : Transaction) (l : list Transaction) :
  (0 < count c l)%nat →
  ∃ l1 x l2, l = l1 ++ x :: l2
    ∧ Forall (λ y, tx_eqb y c = false) l1 ∧ tx_eqb x c = true.
Proof.
  intros Hc. destruct (first_occurrence c l) as [Habs | ?]; [| done].
  exfalso. unfold count in Hc.
  induction Habs as [|y l Hy _ IH]; simpl in Hc; [lia |].
  rewrite filter_cons, decide_False in Hc by (by rewrite Hy). auto.
Qed.

(** The loop of [delete_selected] on the transactions it looks up. *)
Lemma remove_rows_targets (rows : list Transaction) (indices : list Z)
    (ts : list Transaction) (b : FinanceBook) :
  Forall2 (λ i t, py_index rows i = Some t) indices ts →
  (∀ c, (count c ts ≤ count c (transactions b))%nat) →
  Forall (λ t, not_nan (amount t)) ts →
  ∃ b', FinanceApp.remove_rows rows indices b = (None, b')
    ∧ length (transactions b) = (length ts + length (transactions b'))%nat
    ∧ (∀ c, count c (transactions b)
            = (count c ts + count c (transactions b'))%nat)
    ∧ transactions b' `sublist_of` transactions b
    ∧ (∀ year, Forall (λ t, datetime.year (date t) ≠ year) ts →
         value (FinanceBook.for_year year) b'
         = value (FinanceBook.for_year year) b)
    ∧ ∀ year, Forall (λ t, datetime.year (date t) = year) ts →
        length (value (FinanceBook.for_year year) b)
        = (length ts + length (value (FinanceBook.for_year year) b'))%nat.
Proof.
  intros Hidx. revert b.
  induction Hidx as [|i t indices ts Hi _ IH]; intros b Hcount Hnan.
  - exists b. by repeat split.
  - apply Forall_cons in Hnan as [Ht Hnan].
    destruct (count_pos t (transactions b)) as (l1 & x & l2 & Hl & Hl1 & Hx).
    { specialize (Hcount t). rewrite count_cons, tx_eqb_refl in Hcount by done.
      lia. }
    assert (remove t b = (Ok tt, mkFinanceBook (l1 ++ l2))) as Hrem.
    { apply remove_Ok. simpl. rewrite Hl. by apply list_remove_first. }
    destruct (IH (mkFinanceBook (l1 ++ l2)))
      as (b' & Hrows & Hlen & Hcnt & Hsub & Hfil & Hyr); [| done |].
    { intros c. specialize (Hcount c). simpl.
      rewrite Hl, count_cons, count_app, count_cons in Hcount.
      rewrite count_app, (tx_eqb_congr x t c Hx) in *. lia. }
    exists b'. simpl. rewrite Hi, Hrem. split; [done |].
    simpl in Hlen, Hcnt, Hsub, Hfil. split; [| split; [| split; [| split]]].
    + rewrite Hl, length_app in *. simpl. lia.
    + intros c. specialize (Hcnt c).
      rewrite Hl, count_app, !count_cons, (tx_eqb_congr x t c Hx).
      rewrite count_app in Hcnt. lia.
    + rewrite Hl. etrans; [exact Hsub |].
      apply sublist_app; [done |]. by apply sublist_cons.
    + intros year [Hty Hnot]%Forall_cons. rewrite Hfil by done.
      rewrite !for_year_unfold, Hl. simpl.
      rewrite !filter_app, filter_cons, decide_False; [done |].
      by rewrite (tx_eqb_date x t Hx).
    + intros year [Hty Hall]%Forall_cons. specialize (Hyr year Hall).
      rewrite <-Hyr, !for_year_unfold, Hl. cbn [transactions length].
      rewrite !filter_app, filter_cons, decide_True
        by (by rewrite (tx_eqb_date x t Hx)).
      rewrite !length_app. cbn [length]. lia.
Qed.

Lemma fmap_lookup_total_seq {A} `{Inhabited A} (l : list A) :
  (λ i, l !!! i) <$> seq 0 (length l) = l.
Proof.
  apply list_eq. intros i. rewrite list_lookup_fmap.
  destruct (decide (i < length l)%nat) as [Hi | Hi].
  - rewrite lookup_seq_lt by done. simpl.
    by rewrite list_lookup_lookup_total_lt.
  - rewrite lookup_seq_ge by lia. simpl. symmetry.
    apply lookup_ge_None. lia.
Qed.

Lemma lookups_submseteq {A} `{Inhabited A} (l ts : list A) (ixs : list nat) :
  NoDup ixs → Forall2 (λ i t, l !! i = Some t) ixs ts → ts ⊆+ l.
Proof.
  intros Hnd Hts.
  assert (ts = (λ i, l !!! i) <$> ixs) as ->.
  { induction Hts as [|i t ixs ts Hi _ IH]; [done |].
    apply NoDup_cons in Hnd as [_ Hnd]. rewrite fmap_cons, <-IH by done.
    f_equal. symmetry. by apply list_lookup_total_correct. }
  trans ((λ i, l !!! i) <$> seq 0 (length l));
    [| by rewrite fmap_lookup_total_seq].
  apply fmap_submseteq.
  apply NoDup_submseteq; [done |]. intros i Hi. apply elem_of_seq.
  apply list_elem_of_lookup in Hi as [k Hk].
  destruct (Forall2_lookup_l _ _ _ _ _ Hts Hk) as (t & _ & Ht).
  apply lookup_lt_Some in Ht. lia.
Qed.

Local Instance Transaction_inhabited : Inhabited Transaction :=
  populate stranger.

(** X15: [delete_selected] on a selection of distinct rows of the table,
    when no amount of the ledger is a NaN.  No removal raises; for every
    transaction [c] the ledger loses as many transactions equal to [c] as
    selected rows are equal to [c], so as many transactions go as rows were
    selected, all of them from the table; the rest keeps its order and the
    other years are untouched.  The ledger that is left is handed to the
    write: when that returns, the callback goes on to [refresh_all()], and
    when it raises, the exception ends the callback with the transactions
    gone from the ledger all the same.  The selected year stays selected,
    also when no row of it is left. *)
Theorem delete_selected_rows (selected : list Z)
    (write : pyval → result unit) (app : App) :
  let rows := FinanceApp.displayed (selected_year app) (book app) in
  selected ≠ [] →
  NoDup selected →
  Forall (λ i, 0 ≤ i < Z.of_nat (length rows)) selected →
  Forall (λ t, not_nan (amount t)) (transactions (book app)) →
  ∃ b', FinanceApp.delete_selected selected true write app
        = (match write (save_book b') with
           | Ok _ => Deleted (save_book b')
           | Raise e => DeleteFailed (Exception e)
           end,
           mkApp b' (selected_year app) (date_var app) (amount_var app)
             (party_var app) (category_var app))
    ∧ length (transactions (book app))
      = (length selected + length (transactions b'))%nat
    ∧ length rows
      = (length selected
         + length (FinanceApp.displayed (selected_year app) b'))%nat
    ∧ (∀ c, count c (transactions (book app))
            = (count c ((λ i, rows !!! Z.to_nat i) <$> selected)
               + count c (transactions b'))%nat)
    ∧ transactions b' `sublist_of` transactions (book app)
    ∧ ∀ year, year ≠ selected_year app →
        value (FinanceBook.for_year year) b'
        = value (FinanceBook.for_year year) (book app).
Proof.
  intros rows Hne Hnd Hvalid Hnan.
  set (indices := py_sorted_reverse Z.ltb selected).
  assert (indices ≡ₚ selected) as Hperm by apply py_sorted_Permutation.
  rewrite <-Hperm in Hnd, Hvalid.
  assert (rows ⊆+ transactions (book app)) as Hrows.
  { etrans; [apply Permutation_submseteq, py_sorted_Permutation |].
    apply sublist_submseteq. rewrite for_year_unfold. apply sublist_filter. }
  assert (∃ ts, Forall2 (λ i t, py_index rows i = Some t) indices ts
                ∧ Forall2 (λ i t, rows !! Z.to_nat i = Some t) indices ts)
    as (ts & Hts & Hts').
  { clear Hnd Hperm. induction Hvalid as [|i l Hi _ IH]; [by exists [] |].
    destruct IH as (ts & Hts & Hts').
    destruct (lookup_lt_is_Some_2 rows (Z.to_nat i)) as [t Ht]; [lia |].
    exists (t :: ts). split; constructor; try done.
    unfold py_index.
    by rewrite (proj2 (Z.leb_le _ _)), (proj2 (Z.ltb_lt _ _)) by lia. }
  assert (ts ⊆+ rows) as Hsub.
  { apply (lookups_submseteq rows ts (Z.to_nat <$> indices));
      [| by apply Forall2_fmap_l].
    apply NoDup_fmap_2_strong; [| done].
    intros i j Hi Hj Hij. rewrite Forall_forall in Hvalid.
    pose proof (Hvalid i Hi). pose proof (Hvalid j Hj). lia. }
  destruct (remove_rows_targets rows indices ts (book app))
    as (b' & Hrem & Hlen & Hcnt & Hsl & Hframe & Hyr); [done | | |].
  { intros c. apply count_submseteq. by etrans. }
  { rewrite Forall_forall in Hnan |- *. intros t Ht. apply Hnan.
    eapply elem_of_submseteq; [exact Ht | by etrans]. }
  assert (Forall (λ t, datetime.year (date t) = selected_year app) ts)
    as Hyear.
  { apply Forall_forall. intros t Ht.
    assert (t ∈ value (FinanceBook.for_year (selected_year app)) (book app))
      as Hin.
    { rewrite <-(py_sorted_Permutation by_date).
      eapply elem_of_submseteq; [exact Ht | exact Hsub]. }
    rewrite for_year_unfold in Hin.
    by apply list_elem_of_filter in Hin as [? _]. }
  assert (length ts = length selected) as Hlts.
  { apply Forall2_length in Hts. rewrite <-Hts. by rewrite Hperm. }
  exists b'. unfold FinanceApp.delete_selected.
  destruct selected as [|i0 sel]; [done |].
  fold rows. fold indices. cbn [negb]. rewrite Hrem.
  split; [by destruct (write (save_book b')) |].
  split; [by rewrite Hlen, Hlts |]. split.
  { unfold rows, FinanceApp.displayed.
    rewrite !py_sorted_Permutation, <-Hlts. by apply Hyr. }
  split.
  { intros c. rewrite Hcnt. f_equal.
    assert (ts = (λ i, rows !!! Z.to_nat i) <$> indices) as ->.
    { clear -Hts'. induction Hts' as [|i t l ts Hi _ IH]; [done |].
      rewrite fmap_cons, <-IH. f_equal. symmetry.
      by apply list_lookup_total_correct. }
    unfold count. by rewrite Hperm. }
  split; [done |].
  intros year Hne'. apply Hframe.
  eapply Forall_impl; [exact Hyear |]. simpl. congruence.
Qed.

Lemma delete_selected_rows_witness :
  ∃ b', FinanceApp.delete_selected [2; 0] true (λ _, Ok tt)
          (mkApp scenario 2024 "" "" "" "")
        = (Deleted (save_book b'), mkApp b' 2024 "" "" "" "")
    ∧ length (transactions scenario) = (2 + length (transactions b'))%nat
    ∧ length (FinanceApp.displayed 2024 scenario)
      = (2 + length (FinanceApp.displayed 2024 b'))%nat
    ∧ (∀ c, count c (transactions scenario)
            = (count c ((λ i : Z, FinanceApp.displayed 2024 scenario
                                   !!! Z.to_nat i) <$> [2%Z; 0%Z])
               + count c (transactions b'))%nat)
    ∧ transactions b' `sublist_of` transactions scenario
    ∧ ∀ year, year ≠ 2024 →
        value (FinanceBook.for_year year) b'
        = value (FinanceBook.for_year year) scenario.
Proof.
  apply (delete_selected_rows [2; 0] (λ _, Ok tt)
           (mkApp scenario 2024 "" "" "" "")).
  - discriminate.
  - apply NoDup_cons_2; [by intros ?%list_elem_of_singleton |].
    apply NoDup_singleton.
  - repeat constructor; simpl; lia.
  - by repeat constructor.
Defined.

(** X16: Without a selection, or when the question is answered with no,
    [delete_selected] changes nothing; an index that names no row ends the
    loop with [IndexError] as soon as it is reached, before anything is
    saved. *)
Theorem delete_selected_early (selected : list Z)
    (write : pyval → result unit) (app : App) :
  FinanceApp.delete_selected [] true write app = (NothingSelected, app)
  ∧ FinanceApp.delete_selected selected false write app
    = (match selected with [] => NothingSelected | _ => Declined end, app)
  ∧ ∀ i, ¬ (- Z.of_nat (length (FinanceApp.displayed (selected_year app)
                                  (book app))) ≤ i
            < Z.of_nat (length (FinanceApp.displayed (selected_year app)
                                  (book app)))) →
      FinanceApp.delete_selected [i] true write app
      = (DeleteFailed IndexError, app).
Proof.
  split; [done |]. split; [by destruct selected |].
  intros i Hi. unfold FinanceApp.delete_selected. cbn [negb].
  change (py_sorted_reverse Z.ltb [i]) with [i].
  cbn [FinanceApp.remove_rows]. unfold py_index.
  set (n := Z.of_nat _) in *.
  destruct (Z.leb_spec 0 i), (Z.ltb_spec i n), (Z.leb_spec (- n) i),
    (Z.ltb_spec i 0); simpl; try lia; by destruct app.
Qed.

(** ** [_refresh_year_options] and [add_tx] *)

Lemma all_years_ne (today : datetime.date) (self : FinanceBook) :
  value (FinanceBook.all_years today) self ≠ [].
Proof. rewrite all_years_unfold. cbv zeta. by destruct (py_sorted _ _). Qed.

Lemma all_years_greatest (today : datetime.date) (self : FinanceBook) (y : Z) :
  last (value (FinanceBook.all_years today) self) = Some y →
  ∀ y', y' ∈ value (FinanceBook.all_years today) self → y' ≤ y.
Proof.
  destruct (all_years_cases today self) as [[_ ->] | (_ & Hs & _)].
  - intros [= <-] y' ->%list_elem_of_singleton. lia.
  - by apply StronglySorted_lt_last.
Qed.

Lemma refresh_year_options_Some (today : datetime.date) (app : App) :
  let years := value (FinanceBook.all_years today) (book app) in
  ∃ y, FinanceApp.refresh_year_options today app
       = Some (years, mkApp (book app) y (date_var app) (amount_var app)
                        (party_var app) (category_var app))
    ∧ y ∈ years
    ∧ (selected_year app ∈ years → y = selected_year app)
    ∧ (selected_year app ∉ years → last years = Some y).
Proof.
  intros years. unfold FinanceApp.refresh_year_options. cbv zeta.
  change (value (FinanceBook.all_years today) (book app)) with years.
  assert (match years with [] => [datetime.year today] | _ => years end
          = years) as ->.
  { destruct years eqn:Hy; [| done]. by apply all_years_ne in Hy. }
  case_decide as Hsel.
  - exists (selected_year app). by destruct app.
  - destruct (last years) as [y|] eqn:Hl.
    + exists y. simpl. split; [done |]. split; [| done].
      apply last_Some in Hl as [l' ->]. set_solver.
    + apply last_None in Hl. by apply all_years_ne in Hl.
Qed.

(** X17: [_refresh_year_options] never fails on [years[-1]] and never takes its
    branch for an empty list of years.  It offers [all_years()], leaves the
    ledger and the entry fields alone, and afterwards the selected year is
    one of the years offered: the one that was selected if that is offered,
    and the greatest year offered if not.  A second call changes nothing. *)
Theorem refresh_year_options_spec (today : datetime.date) (app : App) :
  let years := value (FinanceBook.all_years today) (book app) in
  ∃ app', FinanceApp.refresh_year_options today app = Some (years, app')
    ∧ (book app', date_var app', amount_var app', party_var app',
       category_var app')
      = (book app, date_var app, amount_var app, party_var app,
         category_var app)
    ∧ selected_year app' ∈ years
    ∧ (selected_year app ∈ years → app' = app)
    ∧ (selected_year app ∉ years →
         last years = Some (selected_year app')
         ∧ ∀ y, y ∈ years → y ≤ selected_year app')
    ∧ FinanceApp.refresh_year_options today app' = Some (years, app').
Proof.
  intros years.
  destruct (refresh_year_options_Some today app) as (y & Hr & Hy & Hin & Hout).
  fold years in Hr, Hy, Hin, Hout.
  eexists. split; [exact Hr |]. simpl. split; [done |]. split; [done |].
  split; [| split].
  - intros Hsel. rewrite (Hin Hsel). by destruct app.
  - intros Hsel. split; [by apply Hout |].
    by apply all_years_greatest, Hout.
  - unfold FinanceApp.refresh_year_options. cbv zeta. simpl.
    change (value (FinanceBook.all_years today) (book app)) with years.
    assert (match years with [] => [datetime.year today] | _ => years end
            = years) as ->.
    { destruct years eqn:Hnil; [| done]. by apply all_years_ne in Hnil. }
    by rewrite decide_True.
Qed.

Lemma add_tx_accept (L : pylib) (strip : string → string)
    (write : pyval → result unit) (today : datetime.date) (kind_ : string)
    (app : App) (dt : datetime.date) (a : float) :
  fromisoformat L (date_var app) = Some dt →
  float_of_str L (amount_var app) = Some a →
  (a <? 0)%float = false →
  let book' := after (FinanceBook.add
                 (mkTransaction dt a (strip (party_var app))
                    (strip (category_var app)) kind_)) (book app) in
  match write (save_book book') with
  | Raise e =>
      FinanceApp.add_tx L strip write today kind_ app
      = (AddFailed (Exception e),
         mkApp book' (selected_year app) (date_var app) (amount_var app)
           (party_var app) (category_var app))
  | Ok _ =>
      ∃ y, FinanceApp.add_tx L strip write today kind_ app
           = (Added (save_book book'),
              mkApp book' y (date_var app) "" (party_var app)
                (category_var app))
        ∧ y ∈ value (FinanceBook.all_years today) book'
        ∧ (selected_year app ∈ value (FinanceBook.all_years today) book' →
           y = selected_year app)
  end.
Proof.
  intros Hd Ha Hneg book'. unfold FinanceApp.add_tx.
  rewrite Hd, Ha, Hneg. cbv zeta. fold book'.
  destruct (write (save_book book')) as [[]|e]; [| done].
  destruct (refresh_year_options_Some today
              (mkApp book' (selected_year app) (date_var app) ""
                 (party_var app) (category_var app)))
    as (y & Hr & Hy & Hin & _).
  rewrite Hr. by exists y.
Qed.

(** X18: [add_tx] by its outcome, up to its call of [refresh_all()].  A
    date or an amount that does not parse, or an amount below zero, is
    reported and nothing changes.  Otherwise exactly one transaction is put
    at the end of the ledger: the parsed date and amount, party and
    category stripped, the kind of the button; and the new ledger is what
    is handed to the write.  When the write raises, that exception ends the
    callback: the transaction stays in the ledger, and no field and no
    selection has changed.  When it returns, only the amount field is
    cleared, and the selected year afterwards has a transaction: it stays
    if it had one or is the year of the new transaction; the [years[-1]]
    of [_refresh_year_options] does not fail. *)
Theorem add_tx_spec (L : pylib) (strip : string → string)
    (write : pyval → result unit) (today : datetime.date) (kind_ : string)
    (app : App) :
  let r := FinanceApp.add_tx L strip write today kind_ app in
  let appended dt a :=
    fromisoformat L (date_var app) = Some dt
    ∧ float_of_str L (amount_var app) = Some a
    ∧ (a <? 0)%float = false
    ∧ transactions (book r.2)
      = transactions (book app)
        ++ [mkTransaction dt a (strip (party_var app))
              (strip (category_var app)) kind_] in
  match r.1 with
  | InvalidDate => fromisoformat L (date_var app) = None ∧ r.2 = app
  | InvalidAmount =>
      is_Some (fromisoformat L (date_var app))
      ∧ float_of_str L (amount_var app) = None ∧ r.2 = app
  | NegativeAmount =>
      is_Some (fromisoformat L (date_var app))
      ∧ (∃ a, float_of_str L (amount_var app) = Some a
              ∧ (a <? 0)%float = true)
      ∧ r.2 = app
  | Added saved =>
      ∃ dt a,
        appended dt a
        ∧ saved = save_book (book r.2)
        ∧ write saved = Ok tt
        ∧ (date_var r.2, amount_var r.2, party_var r.2, category_var r.2)
          = (date_var app, "", party_var app, category_var app)
        ∧ value (FinanceBook.for_year (selected_year r.2)) (book r.2) ≠ []
        ∧ (value (FinanceBook.for_year (selected_year app)) (book app) ≠ []
           ∨ selected_year app = datetime.year dt →
           selected_year r.2 = selected_year app)
  | AddFailed f =>
      ∃ dt a e,
        appended dt a
        ∧ f = Exception e
        ∧ write (save_book (book r.2)) = Raise e
        ∧ (selected_year r.2, date_var r.2, amount_var r.2, party_var r.2,
           category_var r.2)
          = (selected_year app, date_var app, amount_var app, party_var app,
             category_var app)
  end.
Proof.
  intros r appended. unfold appended, r. clear r appended.
  destruct (fromisoformat L (date_var app)) as [dt|] eqn:Hd;
    [| by unfold FinanceApp.add_tx; rewrite Hd].
  destruct (float_of_str L (amount_var app)) as [a|] eqn:Ha;
    [| by unfold FinanceApp.add_tx; rewrite Hd, Ha].
  destruct (a <? 0)%float eqn:Hneg.
  { unfold FinanceApp.add_tx. rewrite Hd, Ha, Hneg. simpl.
    split; [done |]. split; [by exists a | done]. }
  pose proof (add_tx_accept L strip write today kind_ app dt a Hd Ha Hneg)
    as Hacc. cbv zeta in Hacc.
  set (tx := mkTransaction dt a _ _ kind_) in *.
  destruct (write (save_book (after (FinanceBook.add tx) (book app))))
    as [[]|e] eqn:Hw.
  - destruct Hacc as (y & -> & Hy & Hsel).
    cbn [fst snd book date_var amount_var party_var category_var
         selected_year].
    exists dt, a. do 4 (split; [done |]).
    destruct (all_years_cases today (after (FinanceBook.add tx) (book app)))
      as [[Hnil _] | (_ & _ & Hin)].
    { exfalso. change (transactions (book app) ++ [tx] = []) in Hnil.
      by destruct (transactions (book app)). }
    split; [by apply Hin |].
    intros Hold. apply Hsel, Hin. rewrite for_year_add.
    destruct Hold as [Hold | ->].
    + by destruct (value _ (book app)).
    + rewrite decide_True by done. by destruct (value _ (book app)).
  - rewrite Hacc.
    cbn [fst snd book date_var amount_var party_var category_var
         selected_year].
    by exists dt, a, e.
Qed.



(** ** The index column of the table *)

(** X21: The column "index" of the table and [displayed[idx]] of
    [delete_selected] agree: the [k]-th row carries the index [k], which is
    in range, and [displayed[k]] is the transaction whose cells the row
    shows, as long as year and ledger are those of the last refresh.  So
    the indices of the table are pairwise distinct. *)
Theorem refresh_transactions_index (fmt : float → string) (app : App) :
  let table := refresh_transactions fmt app in
  let rows := FinanceApp.displayed (selected_year app) (book app) in
  length table = length rows
  ∧ NoDup (snd <$> table)
  ∧ ∀ k cells idx, table !! k = Some (cells, idx) →
      idx = Z.of_nat k
      ∧ 0 ≤ idx < Z.of_nat (length rows)
      ∧ ∃ tx, py_index rows idx = Some tx
          ∧ cells = [datetime.isoformat (date tx); kind tx; fmt (amount tx);
                     party tx; category tx].
Proof.
  intros table rows. unfold table, refresh_transactions. fold rows.
  split; [by rewrite length_imap |]. split.
  - apply NoDup_alt. intros i j z Hi Hj.
    rewrite list_lookup_fmap, list_lookup_imap in Hi, Hj.
    destruct (rows !! i), (rows !! j); simplify_eq/=. lia.
  - intros k cells idx Hk. rewrite list_lookup_imap in Hk.
    destruct (rows !! k) as [tx|] eqn:Htx; simplify_eq/=.
    pose proof (lookup_lt_Some _ _ _ Htx) as Hlt.
    split; [done |]. split; [lia |]. exists tx. split; [| done].
    unfold py_index.
    rewrite (proj2 (Z.leb_le _ _)), (proj2 (Z.ltb_lt _ _)) by lia.
    cbn [andb]. by rewrite Nat2Z.id.
Qed.

(** ** An invariant of the ledger *)


